(** * Haptic-glove finger retargeting: a shallow embedding

    This development embeds, as executable Rocq functions, the finger
    retargeting engine (HapticGloveFingersRetargeting.cpp), the periodic
    module scheduler (HapticGloveModule.cpp) and the glove helper
    (GloveControlHelper.cpp) of the walking-teleoperation haptic-glove
    module, and proves properties of them.

    Conventions.
    - A C++ [double] is an element of a type [R] carrying the arithmetic the
      code uses (class [Scalar]); the instance used for evaluation is the
      primitive IEEE-754 binary64 type [float].
    - Library code that is not part of the repository (Eigen's [inverse()],
      libm's [sin], iCub's [Integrator], the YARP configuration look-ups,
      the SenseGlove SDK) is taken as a parameter, through a type class or
      as the answer a call receives; every theorem holds for all
      implementations of these.
    - A method [bool C::f(args)] that mutates [*this] becomes a function
      [f args s : bool * C]. *)

From Stdlib Require Import PrimFloat FloatOps SpecFloat Uint63 ZArith Lia Strings.String.
From stdpp Require Import base tactics option list gmap strings.

Local Open Scope nat_scope.

(** ** Scalars *)

Class Scalar (R : Type) := {
  szero : R;
  sone : R;
  sadd : R -> R -> R;
  ssub : R -> R -> R;
  smul : R -> R -> R
}.

(** The literals [-1.0] and [2.0] of the random-velocity formula; both are
    exact in binary64. *)
Definition sneg_one `{Scalar R} : R := ssub szero sone.
Definition stwo `{Scalar R} : R := sadd sone sone.

(** libm: [sin] and the constant [M_PI_4]. *)
Class Libm (R : Type) := {
  ssin : R -> R;
  M_PI_4 : R
}.

(** ** Dynamic row-major matrices (Eigen::Matrix<double, Dynamic, Dynamic, RowMajor>)

    A matrix keeps its column count next to its rows, so that a matrix with
    zero rows and [n] columns (what [resize(Eigen::NoChange, n)] makes of a
    default-constructed matrix) differs from the default 0 x 0 matrix. *)

Record Matrix (R : Type) := mkMatrix {
  ncols : nat;
  mrows : list (list R)
}.
Arguments mkMatrix {R} _ _.
Arguments ncols {R} _.
Arguments mrows {R} _.

Section MatrixOps.
Context {R : Type} `{!Scalar R}.

Definition nrows (m : Matrix R) : nat := length (mrows m).

(** Eigen's [size()]: rows times columns. *)
Definition msize (m : Matrix R) : nat := nrows m * ncols m.

(** A default-constructed dynamic matrix. *)
Definition mempty : Matrix R := mkMatrix 0 [].

(** [v(i)]. The source's accessors are unchecked, so a read outside the
    vector is undefined behaviour there; the model returns zero, and the
    theorems that depend on such a read assume the index is in range. *)
Definition vget (v : list R) (i : nat) : R := default szero (v !! i).

(** [m(i, j)], with the same convention. *)
Definition coeffAt (m : Matrix R) (i j : nat) : R :=
  vget (default [] (mrows m !! i)) j.

(** The [r] x [c] matrix with entries [f i j]. *)
Definition tabulate (r c : nat) (f : nat -> nat -> R) : Matrix R :=
  mkMatrix c ((fun i => f i <$> seq 0 c) <$> seq 0 r).

Definition transpose (m : Matrix R) : Matrix R :=
  tabulate (ncols m) (nrows m) (fun i j => coeffAt m j i).

Definition vsum (l : list R) : R := foldl sadd szero l.

(** [a * b]. Eigen requires [a.cols() == b.rows()]; the sum runs over the
    columns of [a]. *)
Definition mmul (a b : Matrix R) : Matrix R :=
  tabulate (nrows a) (ncols b)
    (fun i j => vsum ((fun k => smul (coeffAt a i k) (coeffAt b k j)) <$> seq 0 (ncols a))).

(** [m.col(j)], an [nrows m] x 1 matrix. *)
Definition col (m : Matrix R) (j : nat) : Matrix R :=
  tabulate (nrows m) 1 (fun i _ => coeffAt m i j).

(** [Eigen::MatrixXd::Identity(r, c)]. *)
Definition MatrixIdentity (r c : nat) : Matrix R :=
  tabulate r c (fun i j => if decide (i = j) then sone else szero).

(** [yarp::sig::Vector::resize(n)]: keeps the leading entries, new entries
    are zero. *)
Definition vresize (n : nat) (v : list R) : list R :=
  take n v ++ replicate (n - length v) szero.

(** Modelled from the spec: [push_back_row] of Utils.hpp, which is not among
    the sources. The spec's recordSample "appends one row" to a sample log
    and "fails (returns false) if [the] vector's size mismatches the
    configured axis/joint count". [values] is a 1 x n row; a matrix whose
    column count is still zero has no configured count and takes any row. *)
Definition push_back_row (m values : Matrix R) : bool * Matrix R :=
  if bool_decide (ncols m ≠ 0) && bool_decide (ncols m ≠ ncols values)
  then (false, m)
  else (true, mkMatrix (ncols values)
                (mrows m ++ [coeffAt values 0 <$> seq 0 (ncols values)])).

End MatrixOps.

(** Eigen's [inverse()] on a dynamic matrix. *)
Class EigenLib (R : Type) := {
  inverse : Matrix R -> Matrix R
}.

(** iCub::ctrl::Integrator: construction from the sampling time, the initial
    position and the limits; [integrate] advances the internal state and
    returns the new position. *)
Class IntegratorLib (R : Type) := {
  Integrator : Type;
  new_Integrator : R -> list R -> Matrix R -> Integrator;
  integrate : Integrator -> list R -> Integrator * list R
}.

(** ** The actuator/sensor collaborator *)

(** Modelled from the spec: HapticGlove::RobotControlHelper, which is not
    among the sources. Section 6 of the spec gives its contract:
    getActuatedDoFs, getNumberOfJoints, getLimits, getVelocityLimits,
    getFeedback "(refreshes internal cache)", jointEncoders, analogSensors
    and move(axisRef). The record holds the two cached measurement vectors
    and the last axis command handed to the actuator. *)
Record RobotControlHelper (R : Type) := mkHelper {
  actuatedDoFs : nat;
  numberOfJoints : nat;
  limits : option (Matrix R);
  velocityLimits : Matrix R;
  jointEncoders : list R;
  analogSensors : list R;
  actuatorCommand : list R
}.
Arguments mkHelper {R} _ _ _ _ _ _ _.
Arguments actuatedDoFs {R} _.
Arguments numberOfJoints {R} _.
Arguments limits {R} _.
Arguments velocityLimits {R} _.
Arguments jointEncoders {R} _.
Arguments analogSensors {R} _.
Arguments actuatorCommand {R} _.

(** What one read of the robot's encoders and analog sensors delivers:
    [None] when the read fails, the pair (axis values, joint values)
    otherwise. *)
Definition Reading (R : Type) : Type := option (list R * list R).

Section Helper.
Context {R : Type}.

Definition getActuatedDoFs (h : RobotControlHelper R) : nat := actuatedDoFs h.
Definition getNumberOfJoints (h : RobotControlHelper R) : nat := numberOfJoints h.
Definition getLimits (h : RobotControlHelper R) : option (Matrix R) := limits h.
Definition getVelocityLimits (h : RobotControlHelper R) : Matrix R := velocityLimits h.

(** Modelled from the spec: RobotControlHelper::getFeedback. A successful
    read refreshes the cache; after a failed one "stale cached values
    remain usable". *)
Definition getFeedback (rd : Reading R) (h : RobotControlHelper R)
  : bool * RobotControlHelper R :=
  match rd with
  | None => (false, h)
  | Some (axes, joints) =>
      (true, mkHelper (actuatedDoFs h) (numberOfJoints h) (limits h)
               (velocityLimits h) axes joints (actuatorCommand h))
  end.

(** Modelled from the spec: RobotControlHelper::move(axisRef), the
    actuation step. *)
Definition helper_move (axisRef : list R) (h : RobotControlHelper R)
  : bool * RobotControlHelper R :=
  (true, mkHelper (actuatedDoFs h) (numberOfJoints h) (limits h)
           (velocityLimits h) (jointEncoders h) (analogSensors h) axisRef).

End Helper.

(** The YARP configuration source ([yarp::os::Searchable]) and the look-up
    helpers of Utils.hpp. [getYarpVectorFromSearchable c key out] receives
    the output vector as the caller has sized it. [check_asBool c key d] is
    [c.check(key, yarp::os::Value(d)).asBool()]. [helper_configure] is
    RobotControlHelper::configure. *)
Class ConfigSource (R Config : Type) := {
  helper_configure : Config -> string -> bool -> option (RobotControlHelper R);
  getDoubleFromSearchable : Config -> string -> option R;
  getYarpVectorFromSearchable : Config -> string -> list R -> option (list R);
  check_asBool : Config -> string -> bool -> bool
}.

(** ** FingersRetargeting (HapticGloveFingersRetargeting.cpp) *)

Record FingersRetargeting (R : Type) `{!IntegratorLib R} := mkFingers {
  m_controlHelper : RobotControlHelper R;
  m_fingersScaling : list R;
  m_motorJointsCoupled : bool;
  m_doCalibration : bool;
  m_A : Matrix R;
  m_controlCoeff : Matrix R;
  m_desiredMotorValue : list R;
  m_desiredJointValue : list R;
  m_fingerIntegrator : option Integrator;
  m_motorsData : Matrix R;
  m_jointsData : Matrix R;
  motorVelocityReference : list R
}.
Arguments mkFingers {R _} _ _ _ _ _ _ _ _ _ _ _ _.
Arguments m_controlHelper {R _} _.
Arguments m_fingersScaling {R _} _.
Arguments m_motorJointsCoupled {R _} _.
Arguments m_doCalibration {R _} _.
Arguments m_A {R _} _.
Arguments m_controlCoeff {R _} _.
Arguments m_desiredMotorValue {R _} _.
Arguments m_desiredJointValue {R _} _.
Arguments m_fingerIntegrator {R _} _.
Arguments m_motorsData {R _} _.
Arguments m_jointsData {R _} _.
Arguments motorVelocityReference {R _} _.

(** The outcome of a call of a [bool]-valued method: [Some b] when it
    executes [return b], [None] when control reaches the closing brace
    without a [return] statement. *)
Definition Status : Type := option bool.

Section Fingers.
Context {R : Type} `{!Scalar R, !Libm R, !EigenLib R, !IntegratorLib R}.

#[local] Abbreviation FR := (FingersRetargeting R).

(** Field assignments. *)
Definition with_controlHelper (h : RobotControlHelper R) (s : FR) : FR :=
  mkFingers h (m_fingersScaling s) (m_motorJointsCoupled s) (m_doCalibration s)
    (m_A s) (m_controlCoeff s) (m_desiredMotorValue s) (m_desiredJointValue s)
    (m_fingerIntegrator s) (m_motorsData s) (m_jointsData s) (motorVelocityReference s).

Definition with_A (a : Matrix R) (s : FR) : FR :=
  mkFingers (m_controlHelper s) (m_fingersScaling s) (m_motorJointsCoupled s)
    (m_doCalibration s) a (m_controlCoeff s) (m_desiredMotorValue s)
    (m_desiredJointValue s) (m_fingerIntegrator s) (m_motorsData s) (m_jointsData s)
    (motorVelocityReference s).

Definition with_controlCoeff (c : Matrix R) (s : FR) : FR :=
  mkFingers (m_controlHelper s) (m_fingersScaling s) (m_motorJointsCoupled s)
    (m_doCalibration s) (m_A s) c (m_desiredMotorValue s)
    (m_desiredJointValue s) (m_fingerIntegrator s) (m_motorsData s) (m_jointsData s)
    (motorVelocityReference s).

Definition with_desiredMotorValue (v : list R) (s : FR) : FR :=
  mkFingers (m_controlHelper s) (m_fingersScaling s) (m_motorJointsCoupled s)
    (m_doCalibration s) (m_A s) (m_controlCoeff s) v
    (m_desiredJointValue s) (m_fingerIntegrator s) (m_motorsData s) (m_jointsData s)
    (motorVelocityReference s).

Definition with_fingerIntegrator (i : option Integrator) (s : FR) : FR :=
  mkFingers (m_controlHelper s) (m_fingersScaling s) (m_motorJointsCoupled s)
    (m_doCalibration s) (m_A s) (m_controlCoeff s) (m_desiredMotorValue s)
    (m_desiredJointValue s) i (m_motorsData s) (m_jointsData s)
    (motorVelocityReference s).

Definition with_motorsData (m : Matrix R) (s : FR) : FR :=
  mkFingers (m_controlHelper s) (m_fingersScaling s) (m_motorJointsCoupled s)
    (m_doCalibration s) (m_A s) (m_controlCoeff s) (m_desiredMotorValue s)
    (m_desiredJointValue s) (m_fingerIntegrator s) m (m_jointsData s)
    (motorVelocityReference s).

Definition with_jointsData (m : Matrix R) (s : FR) : FR :=
  mkFingers (m_controlHelper s) (m_fingersScaling s) (m_motorJointsCoupled s)
    (m_doCalibration s) (m_A s) (m_controlCoeff s) (m_desiredMotorValue s)
    (m_desiredJointValue s) (m_fingerIntegrator s) (m_motorsData s) m
    (motorVelocityReference s).

Definition with_motorVelocityReference (v : list R) (s : FR) : FR :=
  mkFingers (m_controlHelper s) (m_fingersScaling s) (m_motorJointsCoupled s)
    (m_doCalibration s) (m_A s) (m_controlCoeff s) (m_desiredMotorValue s)
    (m_desiredJointValue s) (m_fingerIntegrator s) (m_motorsData s) (m_jointsData s) v.

(** [controlHelper()]. *)
Definition controlHelper (s : FR) : RobotControlHelper R := m_controlHelper s.

(** FingersRetargeting::setFingersAxisReference. The loop assigns
    [m_desiredMotorValue(i) = fingersReference(i) * m_fingersScaling(i)]
    for [i] from 0 to [fingersReference.size() - 1]. *)
Definition setFingersAxisReference (fingersReference : list R) (s : FR) : bool * FR :=
  if bool_decide (length fingersReference ≠ length (m_desiredMotorValue s))
  then (false, s)
  else
    (true,
     with_desiredMotorValue
       (foldl (fun d i => <[i := smul (vget fingersReference i) (vget (m_fingersScaling s) i)]> d)
              (m_desiredMotorValue s) (seq 0 (length fingersReference)))
       s).

(** FingersRetargeting::setFingersJointReference. The result of the call of
    setFingersAxisReference is discarded by the source. *)
Definition setFingersJointReference (fingersReference : list R) (s : FR) : bool * FR :=
  if bool_decide (length fingersReference ≠ length (m_desiredJointValue s))
  then (false, s)
  else
    let noJoints := getNumberOfJoints (m_controlHelper s) in
    let noMotors := getActuatedDoFs (m_controlHelper s) in
    let fingersJointsRef := tabulate noJoints 1 (fun i _ => vget fingersReference i) in
    let fingersMotorRef := mmul (m_controlCoeff s) fingersJointsRef in
    let fingersMotorsReference := (fun i => coeffAt fingersMotorRef i 0) <$> seq 0 noMotors in
    (true, (setFingersAxisReference fingersMotorsReference s).2).

(** FingersRetargeting::updateFeedback; [rd] is what the robot delivers on
    this read. *)
Definition updateFeedback (rd : Reading R) (s : FR) : bool * FR :=
  let '(ok, h) := getFeedback rd (controlHelper s) in
  if negb ok then (false, with_controlHelper h s) else (true, with_controlHelper h s).

(** FingersRetargeting::getFingerAxisMeasuredValues: the output vector is
    cleared and overwritten. *)
Definition getFingerAxisMeasuredValues (s : FR) : list R :=
  jointEncoders (controlHelper s).

(** FingersRetargeting::getFingerJointsMeasuredValues. *)
Definition getFingerJointsMeasuredValues (s : FR) : list R :=
  analogSensors (controlHelper s).

(** Modelled from the spec: FingersRetargeting::move, inherited from a base
    class that is not among the sources. The spec's calibration step (d)
    "push[es] the axis reference to the actuator": the stored desired motor
    command goes to the collaborator's move. *)
Definition move (s : FR) : bool * FR :=
  let '(ok, h) := helper_move (m_desiredMotorValue s) (m_controlHelper s) in
  (ok, with_controlHelper h s).

(** The common first part of the two calibration-session operations: the
    cached measurements are copied into a 1 x noAxis and a 1 x noJoints row
    and pushed onto the two sample logs. [inl s'] is the early
    [return false] with the state reached so far. *)
Definition record_sample (s : FR) : FR + FR :=
  let fingerAxisValues := getFingerAxisMeasuredValues s in
  let fingerJointsValues := getFingerJointsMeasuredValues s in
  let noJoints := getNumberOfJoints (m_controlHelper s) in
  let noAxis := getActuatedDoFs (m_controlHelper s) in
  let fingerAxisValuesEigen := tabulate 1 noAxis (fun _ i => vget fingerAxisValues i) in
  let fingerJointsValuesEigen := tabulate 1 noJoints (fun _ i => vget fingerJointsValues i) in
  let '(ok1, md) := push_back_row (m_motorsData s) fingerAxisValuesEigen in
  let s1 := with_motorsData md s in
  if negb ok1 then inl s1
  else
    let '(ok2, jd) := push_back_row (m_jointsData s1) fingerJointsValuesEigen in
    let s2 := with_jointsData jd s1 in
    if negb ok2 then inl s2 else inr s2.

(** FingersRetargeting::LogDataToCalibrateRobotMotorsJointsCouplingRandom.
    [rnd i] is the value of [double(rand()) / double(RAND_MAX)] in the
    [i]-th iteration of the loop over the axes. [motorVelocityReference] is
    a member: the loop appends to it on every call. *)
Definition LogDataToCalibrateRobotMotorsJointsCouplingRandom
    (generateRandomVelocity : bool) (rnd : nat -> R) (s : FR) : bool * FR :=
  if negb (m_motorJointsCoupled s) then (true, s)
  else if negb (m_doCalibration s) then (true, s)
  else
    match m_fingerIntegrator s with
    | None => (false, s)
    | Some integ =>
        match record_sample s with
        | inl s' => (false, s')
        | inr s2 =>
            let motorVelocitylimits := getVelocityLimits (m_controlHelper s2) in
            let randomVel i :=
              sadd (smul sneg_one (coeffAt motorVelocitylimits i 1))
                   (smul (smul (rnd i) stwo) (coeffAt motorVelocitylimits i 1)) in
            let s3 :=
              if generateRandomVelocity
              then with_motorVelocityReference
                     (motorVelocityReference s2
                        ++ (randomVel <$> seq 0 (getActuatedDoFs (m_controlHelper s2)))) s2
              else s2 in
            let '(integ', motorReference) := integrate integ (motorVelocityReference s3) in
            let s4 := with_fingerIntegrator (Some integ') s3 in
            let s5 := (setFingersAxisReference motorReference s4).2 in
            let s6 := (move s5).2 in
            (true, s6)
        end
    end.

(** FingersRetargeting::LogDataToCalibrateRobotMotorsJointsCouplingSin.
    [axisNumber] is an [int] in the source; a negative or too large value
    makes the write [motorReference(axisNumber) = ...] undefined behaviour
    there, and leaves the vector unchanged here. *)
Definition LogDataToCalibrateRobotMotorsJointsCouplingSin
    (time : R) (axisNumber : nat) (s : FR) : bool * FR :=
  if negb (m_motorJointsCoupled s) then (true, s)
  else if negb (m_doCalibration s) then (true, s)
  else
    match m_fingerIntegrator s with
    | None => (false, s)
    | Some _ =>
        match record_sample s with
        | inl s' => (false, s')
        | inr s2 =>
            let noAxis := getActuatedDoFs (m_controlHelper s2) in
            let motorReference :=
              <[axisNumber := sadd M_PI_4 (smul M_PI_4 (ssin time))]>
                (vresize noAxis []) in
            let s3 := (setFingersAxisReference motorReference s2).2 in
            let s4 := (move s3).2 in
            (true, s4)
        end
    end.

(** The least-squares coefficient as the source writes it, twice:
    [((x.transpose() * x).inverse()) * x.transpose()]. *)
Definition normal_equations_coeff (x : Matrix R) : Matrix R :=
  mmul (inverse (mmul (transpose x) x)) (transpose x).

(** FingersRetargeting::trainCouplingMatrix. The determinant and the rank of
    [xT_x] are only written to the log. The function body has no [return]
    statement. The result of [push_back_row] is discarded. *)
Definition trainCouplingMatrix (s : FR) : Status * FR :=
  let coeff := normal_equations_coeff (m_motorsData s) in
  let A :=
    foldl (fun a i =>
             let tetha_i := mmul coeff (col (m_jointsData s) i) in
             (push_back_row a (transpose tetha_i)).2)
          (m_A s) (seq 0 (getNumberOfJoints (m_controlHelper s))) in
  let s1 := with_A A s in
  let s2 := with_controlCoeff (normal_equations_coeff (m_A s1)) s1 in
  (None, s2).

End Fingers.

Section Configure.
Context {R Config : Type}
  `{!Scalar R, !Libm R, !EigenLib R, !IntegratorLib R, !ConfigSource R Config}.

(** FingersRetargeting::configure, called on a freshly constructed object
    (default-constructed, hence 0 x 0, matrices and empty vectors). [None]
    stands for [return false]. [rd] is what the robot delivers to the
    [updateFeedback()] call, whose result the source discards. The two
    final [resize(Eigen::NoChange, n)] calls set the column counts of the
    sample logs and keep their (zero) rows. *)
Definition configure (config : Config) (name : string) (rd : Reading R)
  : option (FingersRetargeting R) :=
  h ← helper_configure config name false;
  let fingersNoOfAxis := getActuatedDoFs h in
  samplingTime ← getDoubleFromSearchable config "samplingTime";
  fingersScaling ←
    getYarpVectorFromSearchable config "fingersScaling" (vresize fingersNoOfAxis []);
  let motorJointsCoupled := check_asBool config "motorsJointsCoupled" false in
  let doCalibration := check_asBool config "doCalibration" false in
  let noAnalogSensor := getNumberOfJoints h in
  A ←
    (if motorJointsCoupled
     then
       if negb doCalibration
       then
         A_vector ← getYarpVectorFromSearchable config "CouplingMatrix" [];
         Some (tabulate noAnalogSensor fingersNoOfAxis
                 (fun i j => vget A_vector (i * fingersNoOfAxis + j)))
       else Some mempty
     else Some (MatrixIdentity fingersNoOfAxis fingersNoOfAxis));
  let s0 :=
    mkFingers h fingersScaling motorJointsCoupled doCalibration A mempty
      (vresize fingersNoOfAxis []) (vresize (getNumberOfJoints h) [])
      None mempty mempty [] in
  let s1 := (updateFeedback rd s0).2 in
  let buff := getFingerAxisMeasuredValues s1 in
  limits ← getLimits (m_controlHelper s1);
  let s2 := with_fingerIntegrator (Some (new_Integrator samplingTime buff limits)) s1 in
  let s3 := with_jointsData
              (mkMatrix (getNumberOfJoints (m_controlHelper s2)) (mrows (m_jointsData s2))) s2 in
  let s4 := with_motorsData
              (mkMatrix (getActuatedDoFs (m_controlHelper s3)) (mrows (m_motorsData s3))) s3 in
  Some s4.

End Configure.

(** ** HapticGloveModule (HapticGloveModule.cpp) *)

Inductive HapticGloveFSM : Type :=
  | Configured
  | InPreparation
  | Running.

Record HapticGloveModule (R : Type) `{!IntegratorLib R} := mkModule {
  m_state : HapticGloveFSM;
  m_timeStarting : R;
  m_timeNow : R;
  m_leftHandFingers : FingersRetargeting R;
  m_rightHandFingers : FingersRetargeting R;
  m_icubLeftFingerAxisReference : list R;
  m_icubLeftFingerAxisFeedback : list R;
  m_icubLeftFingerJointsReference : list R;
  m_icubLeftFingerJointsFeedback : list R;
  m_icubRightFingerAxisReference : list R;
  m_icubRightFingerAxisFeedback : list R;
  m_icubRightFingerJointsReference : list R;
  m_icubRightFingerJointsFeedback : list R
}.
Arguments mkModule {R _} _ _ _ _ _ _ _ _ _ _ _ _ _.
Arguments m_state {R _} _.
Arguments m_timeStarting {R _} _.
Arguments m_timeNow {R _} _.
Arguments m_leftHandFingers {R _} _.
Arguments m_rightHandFingers {R _} _.
Arguments m_icubLeftFingerAxisReference {R _} _.
Arguments m_icubLeftFingerAxisFeedback {R _} _.
Arguments m_icubLeftFingerJointsReference {R _} _.
Arguments m_icubLeftFingerJointsFeedback {R _} _.
Arguments m_icubRightFingerAxisReference {R _} _.
Arguments m_icubRightFingerAxisFeedback {R _} _.
Arguments m_icubRightFingerJointsReference {R _} _.
Arguments m_icubRightFingerJointsFeedback {R _} _.

(** What the environment supplies to one cycle: the outcome of the robot
    read behind the left hand's [updateFeedback()], and the value of
    [yarp::os::Time::now()]. *)
Record CycleInput (R : Type) := mkCycleInput {
  leftReading : Reading R;
  timeNow : R
}.
Arguments mkCycleInput {R} _ _.
Arguments leftReading {R} _.
Arguments timeNow {R} _.

Section Module.
Context {R : Type} `{!Scalar R, !Libm R, !EigenLib R, !IntegratorLib R}.

#[local] Abbreviation HGM := (HapticGloveModule R).

Definition with_state (st : HapticGloveFSM) (m : HGM) : HGM :=
  mkModule st (m_timeStarting m) (m_timeNow m) (m_leftHandFingers m)
    (m_rightHandFingers m) (m_icubLeftFingerAxisReference m)
    (m_icubLeftFingerAxisFeedback m) (m_icubLeftFingerJointsReference m)
    (m_icubLeftFingerJointsFeedback m) (m_icubRightFingerAxisReference m)
    (m_icubRightFingerAxisFeedback m) (m_icubRightFingerJointsReference m)
    (m_icubRightFingerJointsFeedback m).

Definition with_timeStarting (t : R) (m : HGM) : HGM :=
  mkModule (m_state m) t (m_timeNow m) (m_leftHandFingers m)
    (m_rightHandFingers m) (m_icubLeftFingerAxisReference m)
    (m_icubLeftFingerAxisFeedback m) (m_icubLeftFingerJointsReference m)
    (m_icubLeftFingerJointsFeedback m) (m_icubRightFingerAxisReference m)
    (m_icubRightFingerAxisFeedback m) (m_icubRightFingerJointsReference m)
    (m_icubRightFingerJointsFeedback m).

Definition with_timeNow (t : R) (m : HGM) : HGM :=
  mkModule (m_state m) (m_timeStarting m) t (m_leftHandFingers m)
    (m_rightHandFingers m) (m_icubLeftFingerAxisReference m)
    (m_icubLeftFingerAxisFeedback m) (m_icubLeftFingerJointsReference m)
    (m_icubLeftFingerJointsFeedback m) (m_icubRightFingerAxisReference m)
    (m_icubRightFingerAxisFeedback m) (m_icubRightFingerJointsReference m)
    (m_icubRightFingerJointsFeedback m).

Definition with_leftHandFingers (f : FingersRetargeting R) (m : HGM) : HGM :=
  mkModule (m_state m) (m_timeStarting m) (m_timeNow m) f
    (m_rightHandFingers m) (m_icubLeftFingerAxisReference m)
    (m_icubLeftFingerAxisFeedback m) (m_icubLeftFingerJointsReference m)
    (m_icubLeftFingerJointsFeedback m) (m_icubRightFingerAxisReference m)
    (m_icubRightFingerAxisFeedback m) (m_icubRightFingerJointsReference m)
    (m_icubRightFingerJointsFeedback m).

Definition with_rightHandFingers (f : FingersRetargeting R) (m : HGM) : HGM :=
  mkModule (m_state m) (m_timeStarting m) (m_timeNow m) (m_leftHandFingers m)
    f (m_icubLeftFingerAxisReference m)
    (m_icubLeftFingerAxisFeedback m) (m_icubLeftFingerJointsReference m)
    (m_icubLeftFingerJointsFeedback m) (m_icubRightFingerAxisReference m)
    (m_icubRightFingerAxisFeedback m) (m_icubRightFingerJointsReference m)
    (m_icubRightFingerJointsFeedback m).

(** Assignment of the two axis-reference buffers. *)
Definition with_axisReferences (l r : list R) (m : HGM) : HGM :=
  mkModule (m_state m) (m_timeStarting m) (m_timeNow m) (m_leftHandFingers m)
    (m_rightHandFingers m) l
    (m_icubLeftFingerAxisFeedback m) (m_icubLeftFingerJointsReference m)
    (m_icubLeftFingerJointsFeedback m) r
    (m_icubRightFingerAxisFeedback m) (m_icubRightFingerJointsReference m)
    (m_icubRightFingerJointsFeedback m).

(** Assignment of the left hand's two feedback buffers. *)
Definition with_leftFeedback (axis joints : list R) (m : HGM) : HGM :=
  mkModule (m_state m) (m_timeStarting m) (m_timeNow m) (m_leftHandFingers m)
    (m_rightHandFingers m) (m_icubLeftFingerAxisReference m)
    axis (m_icubLeftFingerJointsReference m)
    joints (m_icubRightFingerAxisReference m)
    (m_icubRightFingerAxisFeedback m) (m_icubRightFingerJointsReference m)
    (m_icubRightFingerJointsFeedback m).

(** HapticGloveModule::getFeedbacks. A failed [updateFeedback()] is only
    reported with [yError]; the function goes on and returns [true]. Only
    [m_leftHandFingers] is read. *)
Definition getFeedbacks (rd : Reading R) (m : HGM) : bool * HGM :=
  let '(_, fingers) := updateFeedback rd (m_leftHandFingers m) in
  let m1 := with_leftHandFingers fingers m in
  let m2 := with_leftFeedback
              (getFingerAxisMeasuredValues (m_leftHandFingers m1))
              (getFingerJointsMeasuredValues (m_leftHandFingers m1)) m1 in
  (true, m2).

(** The reference loop of the Running branch: for [i] below the left hand's
    axis count, the left reference entry is set to the sinusoid and the
    right reference entry is copied from it. *)
Definition compute_references (m : HGM) : list R * list R :=
  let noLeftFingersAxis := getActuatedDoFs (controlHelper (m_leftHandFingers m)) in
  foldl (fun '(l, r) i =>
           let l' := <[i := sadd M_PI_4
                              (smul M_PI_4 (ssin (ssub (m_timeNow m) (m_timeStarting m))))]> l in
           (l', <[i := vget l' i]> r))
        (m_icubLeftFingerAxisReference m, m_icubRightFingerAxisReference m)
        (seq 0 noLeftFingersAxis).

(** HapticGloveModule::updateModule. The block that hands the buffers to the
    logger (compiled only with ENABLE_LOGGER) does not change the module and
    is left out. *)
Definition updateModule (inp : CycleInput R) (m : HGM) : bool * HGM :=
  let '(ok, m1) := getFeedbacks (leftReading inp) m in
  if negb ok then (false, m1)
  else
    match m_state m1 with
    | Running =>
        let m2 := with_timeNow (timeNow inp) m1 in
        let '(l, r) := compute_references m2 in
        let m3 := with_axisReferences l r m2 in
        let left1 :=
          (setFingersAxisReference (m_icubLeftFingerAxisReference m3) (m_leftHandFingers m3)).2 in
        let left2 := (move left1).2 in
        let m4 := with_leftHandFingers left2 m3 in
        let right1 :=
          (setFingersAxisReference (m_icubRightFingerAxisReference m4) (m_rightHandFingers m4)).2 in
        let right2 := (move right1).2 in
        (true, with_rightHandFingers right2 m4)
    | Configured => (true, with_state InPreparation m1)
    | InPreparation =>
        let m2 := with_timeStarting (timeNow inp) m1 in
        (true, with_state Running m2)
    end.

(** The periodic caller: one [updateModule] per period, until one returns
    [false]. *)
Fixpoint runModule (inputs : list (CycleInput R)) (m : HGM) : HGM :=
  match inputs with
  | [] => m
  | inp :: rest =>
      let '(ok, m') := updateModule inp m in
      if ok then runModule rest m' else m'
  end.

End Module.

(** ** Specification-level notions *)

Section SpecLevel.
Context {R : Type} `{!Scalar R, !Libm R, !EigenLib R, !IntegratorLib R}.

(** Every stored row has as many entries as the matrix has columns. *)
Definition wf_matrix (m : Matrix R) : Prop :=
  Forall (fun row => length row = ncols m) (mrows m).

(** The matrix-vector product in the spec's words: entry [i] is the inner
    product of row [i] with the vector. *)
Definition mat_vec (m : Matrix R) (v : list R) : list R :=
  (fun row => vsum (zip_with smul row v)) <$> mrows m.

(** Column [j] of a matrix, as a vector. *)
Definition column (m : Matrix R) (j : nat) : list R :=
  (fun row => vget row j) <$> mrows m.

(** The pseudo-inverse formula of the spec, [(Mt M)^-1 Mt]. *)
Definition pinv (m : Matrix R) : Matrix R :=
  mmul (inverse (mmul (transpose m) m)) (transpose m).

(** The spec's estimateCoupling: the rows of A, one per joint [j], are
    [pinv(motorsData) * jointsData[:, j]]. *)
Definition estimateCoupling_rows (motorsData jointsData : Matrix R) (noJoints : nat)
  : list (list R) :=
  (fun j => mat_vec (pinv motorsData) (column jointsData j)) <$> seq 0 noJoints.

(** The degenerate sample logs the spec names: all rows identical, or fewer
    sample rows than motor axes. *)
Definition all_rows_identical (m : Matrix R) : Prop :=
  exists row, mrows m = replicate (nrows m) row.

Definition degenerate_log (s : FingersRetargeting R) : Prop :=
  all_rows_identical (m_motorsData s)
  \/ nrows (m_motorsData s) < getActuatedDoFs (m_controlHelper s).

(** The row a record operation copies out of a cached measurement vector:
    its first [n] entries. *)
Definition sample_row (n : nat) (v : list R) : list R :=
  (fun i => vget v i) <$> seq 0 n.

(** What [configure] establishes for the sample logs and every later call
    keeps: equally many rows in both logs, column counts equal to the axis
    and joint counts, and an integrator. *)
Definition session_ready (s : FingersRetargeting R) : Prop :=
  nrows (m_motorsData s) = nrows (m_jointsData s)
  /\ ncols (m_motorsData s) = getActuatedDoFs (m_controlHelper s)
  /\ ncols (m_jointsData s) = getNumberOfJoints (m_controlHelper s)
  /\ is_Some (m_fingerIntegrator s).

(** The two flags under which a calibration session records. *)
Definition calibrating (s : FingersRetargeting R) : bool :=
  m_motorJointsCoupled s && m_doCalibration s.

(** The calls a calibration session makes on one hand between [configure]
    and [trainCouplingMatrix]. *)
Inductive SessionCall : Type :=
  | CallUpdateFeedback (rd : Reading R)
  | CallLogRandom (generateRandomVelocity : bool) (rnd : nat -> R)
  | CallLogSin (time : R) (axisNumber : nat)
  | CallSetAxis (v : list R)
  | CallSetJoint (v : list R)
  | CallMove.

Definition session_call (c : SessionCall) (s : FingersRetargeting R)
  : bool * FingersRetargeting R :=
  match c with
  | CallUpdateFeedback rd => updateFeedback rd s
  | CallLogRandom g rnd => LogDataToCalibrateRobotMotorsJointsCouplingRandom g rnd s
  | CallLogSin t a => LogDataToCalibrateRobotMotorsJointsCouplingSin t a s
  | CallSetAxis v => setFingersAxisReference v s
  | CallSetJoint v => setFingersJointReference v s
  | CallMove => move s
  end.

Definition is_record_call (c : SessionCall) : bool :=
  match c with
  | CallLogRandom _ _ | CallLogSin _ _ => true
  | _ => false
  end.

(** A sequence of calls, whatever each of them returns. *)
Definition session (cs : list SessionCall) (s : FingersRetargeting R)
  : FingersRetargeting R :=
  foldl (fun st c => (session_call c st).2) s cs.

(** The successor of a scheduler state. *)
Definition fsm_next (st : HapticGloveFSM) : HapticGloveFSM :=
  match st with
  | Configured => InPreparation
  | InPreparation => Running
  | Running => Running
  end.

End SpecLevel.

(** ** Instances for evaluation: IEEE-754 binary64

    The scalar instance is the primitive type [float]. The library
    operations are given simple executable stand-ins; no theorem below
    depends on how they are chosen. *)

Module Double.

#[export] Instance double_Scalar : Scalar float := {|
  szero := 0%float;
  sone := 1%float;
  sadd := PrimFloat.add;
  ssub := PrimFloat.sub;
  smul := PrimFloat.mul
|}.

(** Stand-in for libm: the degree-7 Taylor polynomial of the sine, and the
    binary64 value of pi/4. *)
Definition sin_taylor (x : float) : float :=
  let x2 := (x * x)%float in
  (x * (1 - x2 / 6 * (1 - x2 / 20 * (1 - x2 / 42))))%float.

#[export] Instance double_Libm : Libm float := {|
  ssin := sin_taylor;
  M_PI_4 := 0x1.921fb54442d18p-1%float
|}.

(** Stand-in for Eigen's [inverse()]: Gauss-Jordan elimination on the matrix
    extended by the identity, pivoting on the diagonal. A zero pivot
    produces infinities and NaNs, as IEEE division does. *)
Definition gj_step (k : nat) (rows : list (list float)) : list (list float) :=
  let pivot_row := default [] (rows !! k) in
  let p := vget pivot_row k in
  let scaled := (fun x => (x / p)%float) <$> pivot_row in
  imap (fun i row =>
          if decide (i = k) then scaled
          else zip_with (fun x y => (x - vget row k * y)%float) row scaled)
       rows.

Definition gauss_jordan_inverse (m : Matrix float) : Matrix float :=
  let n := nrows m in
  let extended :=
    imap (fun i row => row ++ ((fun j => if decide (i = j) then 1%float else 0%float) <$> seq 0 n))
         (mrows m) in
  mkMatrix n (drop n <$> foldl (fun rows k => gj_step k rows) extended (seq 0 n)).

#[export] Instance double_Eigen : EigenLib float := {|
  inverse := gauss_jordan_inverse
|}.

(** Stand-in for iCub's integrator: one forward-Euler step per call, clamped
    to the limits. *)
Record EulerIntegrator := mkEuler {
  euler_Ts : float;
  euler_y : list float;
  euler_limits : Matrix float
}.

Definition clamp (lo hi x : float) : float :=
  if (x <? lo)%float then lo else if (hi <? x)%float then hi else x.

Definition euler_integrate (st : EulerIntegrator) (x : list float)
  : EulerIntegrator * list float :=
  let y := imap (fun i yi =>
                   clamp (coeffAt (euler_limits st) i 0) (coeffAt (euler_limits st) i 1)
                         (yi + euler_Ts st * vget x i)%float)
                (euler_y st) in
  (mkEuler (euler_Ts st) y (euler_limits st), y).

#[export] Instance double_Integrator : IntegratorLib float := {|
  Integrator := EulerIntegrator;
  new_Integrator := mkEuler;
  integrate := euler_integrate
|}.

(** Stand-in for the configuration source: a table from keys to values,
    together with the collaborator that RobotControlHelper::configure
    would build. A vector look-up fails on a missing key and on a size
    different from that of a pre-sized output vector. *)
Inductive Value : Type :=
  | VDouble (d : float)
  | VBool (b : bool)
  | VList (l : list float).

Record Table := mkTable {
  table_robot : option (RobotControlHelper float);
  table_entries : gmap string Value
}.

#[export] Instance table_ConfigSource : ConfigSource float Table := {|
  helper_configure := fun c _ _ => table_robot c;
  getDoubleFromSearchable := fun c key =>
    match table_entries c !! key with Some (VDouble d) => Some d | _ => None end;
  getYarpVectorFromSearchable := fun c key out =>
    match table_entries c !! key with
    | Some (VList l) =>
        if bool_decide (length out = 0 \/ length l = length out) then Some l else None
    | _ => None
    end;
  check_asBool := fun c key d =>
    match table_entries c !! key with Some (VBool b) => b | _ => d end
|}.

(** *** Sample data *)

(** A hand with two motor axes and three joints. *)
Definition robot : RobotControlHelper float :=
  mkHelper 2 3
    (Some (mkMatrix 2 [[0; 1.5]; [0; 1.5]]%float))
    (mkMatrix 2 [[-1; 1]; [-1; 1]]%float)
    [0.25; 0.5]%float [0.25; 0.5; 0.75]%float [0; 0]%float.

Definition calibration_table : Table :=
  mkTable (Some robot)
    (<["samplingTime" := VDouble 0.5%float]>
       (<["fingersScaling" := VList [2; 0.5]%float]>
          (<["motorsJointsCoupled" := VBool true]>
             (<["doCalibration" := VBool true]> ∅)))).

Definition uncoupled_table : Table :=
  mkTable (Some robot)
    (<["samplingTime" := VDouble 0.5%float]>
       (<["fingersScaling" := VList [2; 0.5]%float]> ∅)).


(** The object [configure] builds from [calibration_table] when the first
    robot read fails. *)
Definition fingers0 : FingersRetargeting float :=
  mkFingers robot [2; 0.5]%float true true mempty mempty
    [0; 0]%float [0; 0; 0]%float
    (Some (mkEuler 0.5%float [0.25; 0.5]%float (mkMatrix 2 [[0; 1.5]; [0; 1.5]]%float)))
    (mkMatrix 2 []) (mkMatrix 3 []) [].

(** The same hand outside a calibration session. *)
Definition fingers_idle : FingersRetargeting float :=
  mkFingers robot [2; 0.5]%float false false (MatrixIdentity 2 2) mempty
    [0; 0]%float [0; 0; 0]%float
    (Some (mkEuler 0.5%float [0.25; 0.5]%float (mkMatrix 2 [[0; 1.5]; [0; 1.5]]%float)))
    (mkMatrix 2 []) (mkMatrix 3 []) [].

(** Three recorded samples with independent excitation. *)
Definition fingers_excited : FingersRetargeting float :=
  with_jointsData (mkMatrix 3 [[1; 0; 1]; [0; 1; 1]; [1; 1; 2]]%float)
    (with_motorsData (mkMatrix 2 [[1; 0]; [0; 1]; [1; 1]]%float) fingers0).

(** Two recorded samples, both taken at the same posture. *)
Definition fingers_same_rows : FingersRetargeting float :=
  with_jointsData (mkMatrix 3 [[0.25; 0.5; 0.75]; [0.25; 0.5; 0.75]]%float)
    (with_motorsData (mkMatrix 2 [[0.25; 0.5]; [0.25; 0.5]]%float) fingers0).

(** One recorded sample for two axes. *)
Definition fingers_one_row : FingersRetargeting float :=
  with_jointsData (mkMatrix 3 [[0.25; 0.5; 0.75]]%float)
    (with_motorsData (mkMatrix 2 [[0.25; 0.5]]%float) fingers0).

(** A trained hand: the control coefficient is a 2 x 3 matrix. *)
Definition fingers_trained : FingersRetargeting float :=
  with_controlCoeff (mkMatrix 3 [[1; 0; 0.5]; [0; 1; 0.5]]%float) fingers0.

(** A module as HapticGloveModule::configure leaves it. *)
Definition module0 : HapticGloveModule float :=
  mkModule Configured 0%float 0%float fingers_idle fingers_idle
    [0; 0]%float [0; 0]%float [0; 0; 0]%float [0; 0; 0]%float
    [0; 0]%float [0; 0]%float [0; 0; 0]%float [0; 0; 0]%float.

Definition module_running : HapticGloveModule float :=
  with_state Running module0.

(** Three cycles: a failed read, then two successful ones. *)
Definition cycle1 : CycleInput float := mkCycleInput None 1%float.
Definition cycle2 : CycleInput float :=
  mkCycleInput (Some ([0.5; 0.25], [1; 2; 3])%float) 2%float.
Definition cycle3 : CycleInput float :=
  mkCycleInput (Some ([0.75; 0.25], [1; 2; 3])%float) 2.5%float.

(** A short calibration session: two samples, the second taken after a
    failed read. *)
Definition short_session : list (SessionCall (R := float)) :=
  [CallUpdateFeedback (Some ([1; 0], [1; 0; 1])%float);
   CallLogSin 0%float 0;
   CallUpdateFeedback None;
   CallLogRandom true (fun _ => 0.75%float)].

End Double.

(** ** GloveControlHelper (GloveControlHelper.cpp)

    The SenseGlove SDK is a library outside the repository. What a call of
    the SDK delivers is an argument of the function that makes the call, and
    the haptic commands handed to [SendHaptics] are recorded, in order, in
    the field [glove_sent]. *)

(** The order and conversion operations of C++ that the glove helper uses
    on [double]: [a < b], division, the conversion of an [int] to [double],
    and [(int) std::round(x)]. *)
Class CMath (R : Type) := {
  sltb : R -> R -> bool;
  sdiv : R -> R -> R;
  sofZ : Z -> R;
  round_to_int : R -> Z
}.

(** SGCore::Kinematics::Vect3D and Quat. *)
Record Vect3D (R : Type) := mkVect3D { vx : R; vy : R; vz : R }.
Arguments mkVect3D {R} _ _ _.
Arguments vx {R} _.
Arguments vy {R} _.
Arguments vz {R} _.

Record Quat (R : Type) := mkQuat { qx : R; qy : R; qz : R; qw : R }.
Arguments mkQuat {R} _ _ _ _.
Arguments qx {R} _.
Arguments qy {R} _.
Arguments qz {R} _.
Arguments qw {R} _.

(** SGCore::SG::SG_GlovePose and SGCore::HandPose, with the members the
    helper reads. *)
Record SG_GlovePose (R : Type) := mkGlovePose {
  gp_jointPositions : list (list (Vect3D R));
  gp_jointRotations : list (list (Quat R))
}.
Arguments mkGlovePose {R} _ _.
Arguments gp_jointPositions {R} _.
Arguments gp_jointRotations {R} _.

Record HandPose (R : Type) := mkHandPose {
  hp_jointPositions : list (list (Vect3D R));
  hp_jointRotations : list (list (Quat R));
  hp_handAngles : list (list (Vect3D R))
}.
Arguments mkHandPose {R} _ _ _.
Arguments hp_jointPositions {R} _.
Arguments hp_jointRotations {R} _.
Arguments hp_handAngles {R} _.

(** The arguments of [SendHaptics]. *)
Inductive HapticsCmd : Type :=
  | SG_FFBCmd (levels : list Z)
  | SG_FFBCmd_off
  | SG_BuzzCmd (levels : list Z)
  | SG_BuzzCmd_off
  | Impact_Thump_100
  | Object_Grasp_100
  | Button_Double_100.

(** [F] is the element type of [std::vector<float>]. *)
Record GloveControlHelper (R F : Type) := mkGlove {
  m_isReady : bool;
  m_forceFbDof : nat;
  m_buzzDof : nat;
  m_handNoLinks : nat;
  m_gloveNoLinks : nat;
  m_NoSensors : nat;
  m_isRightHand : bool;
  m_desiredForceValues : list Z;
  m_desiredBuzzValues : list Z;
  m_glovePose : Matrix R;
  m_handPose : Matrix R;
  m_handJointsAngles : Matrix R;
  m_sensorData : list F;
  m_humanJointNameList : list string;
  m_humanFingerNameList : list string;
  glove_sent : list HapticsCmd
}.
Arguments mkGlove {R F} _ _ _ _ _ _ _ _ _ _ _ _ _ _ _ _.
Arguments m_isReady {R F} _.
Arguments m_forceFbDof {R F} _.
Arguments m_buzzDof {R F} _.
Arguments m_handNoLinks {R F} _.
Arguments m_gloveNoLinks {R F} _.
Arguments m_NoSensors {R F} _.
Arguments m_isRightHand {R F} _.
Arguments m_desiredForceValues {R F} _.
Arguments m_desiredBuzzValues {R F} _.
Arguments m_glovePose {R F} _.
Arguments m_handPose {R F} _.
Arguments m_handJointsAngles {R F} _.
Arguments m_sensorData {R F} _.
Arguments m_humanJointNameList {R F} _.
Arguments m_humanFingerNameList {R F} _.
Arguments glove_sent {R F} _.

(** The configuration look-ups of GloveControlHelper::configure:
    [config.check(key, value)] with an output pointer, and
    YarpHelper::yarpListToStringVector. *)
Class GloveConfigSource (Config Value : Type) := {
  check_value : Config -> string -> option Value;
  yarpListToStringVector : Value -> option (list string)
}.

Module GloveHelper.
Section GloveHelper.
Context {R F : Type} `{!Scalar R, !CMath R}.

#[local] Abbreviation GCH := (GloveControlHelper R F).

Definition with_desiredForceValues (v : list Z) (g : GCH) : GCH :=
  mkGlove (m_isReady g) (m_forceFbDof g) (m_buzzDof g) (m_handNoLinks g)
    (m_gloveNoLinks g) (m_NoSensors g) (m_isRightHand g) v (m_desiredBuzzValues g)
    (m_glovePose g) (m_handPose g) (m_handJointsAngles g) (m_sensorData g)
    (m_humanJointNameList g) (m_humanFingerNameList g) (glove_sent g).

Definition with_desiredBuzzValues (v : list Z) (g : GCH) : GCH :=
  mkGlove (m_isReady g) (m_forceFbDof g) (m_buzzDof g) (m_handNoLinks g)
    (m_gloveNoLinks g) (m_NoSensors g) (m_isRightHand g) (m_desiredForceValues g) v
    (m_glovePose g) (m_handPose g) (m_handJointsAngles g) (m_sensorData g)
    (m_humanJointNameList g) (m_humanFingerNameList g) (glove_sent g).

Definition with_glovePose (m : Matrix R) (g : GCH) : GCH :=
  mkGlove (m_isReady g) (m_forceFbDof g) (m_buzzDof g) (m_handNoLinks g)
    (m_gloveNoLinks g) (m_NoSensors g) (m_isRightHand g) (m_desiredForceValues g)
    (m_desiredBuzzValues g) m (m_handPose g) (m_handJointsAngles g) (m_sensorData g)
    (m_humanJointNameList g) (m_humanFingerNameList g) (glove_sent g).

Definition with_handPose (m : Matrix R) (g : GCH) : GCH :=
  mkGlove (m_isReady g) (m_forceFbDof g) (m_buzzDof g) (m_handNoLinks g)
    (m_gloveNoLinks g) (m_NoSensors g) (m_isRightHand g) (m_desiredForceValues g)
    (m_desiredBuzzValues g) (m_glovePose g) m (m_handJointsAngles g) (m_sensorData g)
    (m_humanJointNameList g) (m_humanFingerNameList g) (glove_sent g).

Definition with_handJointsAngles (m : Matrix R) (g : GCH) : GCH :=
  mkGlove (m_isReady g) (m_forceFbDof g) (m_buzzDof g) (m_handNoLinks g)
    (m_gloveNoLinks g) (m_NoSensors g) (m_isRightHand g) (m_desiredForceValues g)
    (m_desiredBuzzValues g) (m_glovePose g) (m_handPose g) m (m_sensorData g)
    (m_humanJointNameList g) (m_humanFingerNameList g) (glove_sent g).

Definition with_sensorData (d : list F) (g : GCH) : GCH :=
  mkGlove (m_isReady g) (m_forceFbDof g) (m_buzzDof g) (m_handNoLinks g)
    (m_gloveNoLinks g) (m_NoSensors g) (m_isRightHand g) (m_desiredForceValues g)
    (m_desiredBuzzValues g) (m_glovePose g) (m_handPose g) (m_handJointsAngles g) d
    (m_humanJointNameList g) (m_humanFingerNameList g) (glove_sent g).

(** [m_glove.SendHaptics(cmd)]: the command goes out. *)
Definition SendHaptics (cmd : HapticsCmd) (g : GCH) : GCH :=
  mkGlove (m_isReady g) (m_forceFbDof g) (m_buzzDof g) (m_handNoLinks g)
    (m_gloveNoLinks g) (m_NoSensors g) (m_isRightHand g) (m_desiredForceValues g)
    (m_desiredBuzzValues g) (m_glovePose g) (m_handPose g) (m_handJointsAngles g)
    (m_sensorData g) (m_humanJointNameList g) (m_humanFingerNameList g)
    (glove_sent g ++ [cmd]).

(** [Eigen::MatrixXd::Zero(r, c)]. *)
Definition MatrixZero (r c : nat) : Matrix R := tabulate r c (fun _ _ => szero).

(** The assignment [m(i, j) = v]. Outside the matrix it is undefined
    behaviour in the source and changes nothing here. *)
Definition set_coeff (m : Matrix R) (i j : nat) (v : R) : Matrix R :=
  mkMatrix (ncols m) (alter (fun row => <[j := v]> row) i (mrows m)).

(** [std::max(a, b)] and [std::min(a, b)] as the C++ standard defines them
    from [<]. *)
Definition std_max (a b : R) : R := if sltb a b then b else a.
Definition std_min (a b : R) : R := if sltb b a then b else a.

(** The force level
    [(int)std::round(std::max(0.0, std::min(v, 40.0)) * 100 / 40)]
    for [v > 0.0], and [0] otherwise. *)
Definition force_level (v : R) : Z :=
  if sltb szero v
  then round_to_int
         (sdiv (smul (std_max szero (std_min v (sofZ 40))) (sofZ 100)) (sofZ 40))
  else 0%Z.

(** The buzz level [(int)std::round(std::max(0.0, v))] for [v > 0.0], and
    [0] otherwise. *)
Definition buzz_level (v : R) : Z :=
  if sltb szero v then round_to_int (std_max szero v) else 0%Z.

(** GloveControlHelper::configure on a freshly constructed object; the
    value read for ["robot"] is not used. [None] stands for
    [return false]. *)
Definition configure {Config Value : Type} `{!GloveConfigSource Config Value}
    (config : Config) (name : string) (rightHand : bool) : option GCH :=
  jointListYarp ← check_value config "human_joint_list";
  humanJointNameList ← yarpListToStringVector jointListYarp;
  fingerListYarp ← check_value config "human_finger_list";
  humanFingerNameList ← yarpListToStringVector fingerListYarp;
  Some (mkGlove false 5 5 20 30 20 rightHand
          (replicate 5 0%Z) (replicate 5 0%Z)
          (MatrixZero 30 7) (MatrixZero 20 7) (MatrixZero 20 3)
          [] humanJointNameList humanFingerNameList []).

(** GloveControlHelper::setFingersForceReference; [sendOk] is what
    [SendHaptics] returns. *)
Definition setFingersForceReference (desiredValue : list R) (sendOk : bool) (g : GCH)
  : bool * GCH :=
  if bool_decide (length desiredValue ≠ m_forceFbDof g) then (false, g)
  else
    let g1 :=
      with_desiredForceValues
        (foldl (fun d i => <[i := force_level (vget desiredValue i)]> d)
               (m_desiredForceValues g) (seq 0 (m_forceFbDof g)))
        g in
    let g2 := SendHaptics (SG_FFBCmd (m_desiredForceValues g1)) g1 in
    if negb sendOk then (false, g2) else (true, g2).

(** GloveControlHelper::getFingersForceMeasured. *)
Definition getFingersForceMeasured (measuredValue : list R) (g : GCH)
  : bool * list R :=
  (true, measuredValue).

(** GloveControlHelper::setBuzzMotorsReference. *)
Definition setBuzzMotorsReference (desiredValue : list R) (sendOk : bool) (g : GCH)
  : bool * GCH :=
  if bool_decide (length desiredValue ≠ m_buzzDof g) then (false, g)
  else
    let g1 :=
      with_desiredBuzzValues
        (foldl (fun d i => <[i := buzz_level (vget desiredValue i)]> d)
               (m_desiredBuzzValues g) (seq 0 (m_buzzDof g)))
        g in
    let g2 := SendHaptics (SG_BuzzCmd (m_desiredBuzzValues g1)) g1 in
    if negb sendOk then (false, g2) else (true, g2).

(** GloveControlHelper::turnOffBuzzMotors and turnForceFeedback: the result
    of [SendHaptics] is discarded. *)
Definition turnOffBuzzMotors (g : GCH) : bool * GCH :=
  (true, SendHaptics SG_BuzzCmd_off g).

Definition turnForceFeedback (g : GCH) : bool * GCH :=
  (true, SendHaptics SG_FFBCmd_off g).

(** GloveControlHelper::stopFeedback: the SDK call is commented out. *)
Definition stopFeedback (g : GCH) : bool * GCH := (true, g).

(** GloveControlHelper::setPalmFeedbackThumper; [desiredValue] is an
    [int]. *)
Definition setPalmFeedbackThumper (desiredValue : Z) (sendOk : bool) (g : GCH)
  : bool * GCH :=
  if bool_decide (desiredValue = 0%Z) then (sendOk, SendHaptics Impact_Thump_100 g)
  else if bool_decide (desiredValue = 1%Z) then (sendOk, SendHaptics Object_Grasp_100 g)
  else (sendOk, SendHaptics Button_Double_100 g).

Definition getNoOfBuzzMotors (g : GCH) : nat := m_buzzDof g.
Definition getNoOfForceFeedback (g : GCH) : nat := m_forceFbDof g.
Definition getNoGloveLinks (g : GCH) : nat := m_gloveNoLinks g.
Definition getNoHandLinks (g : GCH) : nat := m_handNoLinks g.
Definition getNoSensors (g : GCH) : nat := m_NoSensors g.
Definition getHumanJointsList (g : GCH) : list string := m_humanJointNameList g.
Definition getHumanFingersList (g : GCH) : list string := m_humanFingerNameList g.

(** [l[i][j]] on a vector of vectors; a read outside is undefined behaviour
    in the source and yields [d] here. *)
Definition at2 {A : Type} (d : A) (l : list (list A)) (i j : nat) : A :=
  default d (default [] (l !! i) !! j).

(** The seven assignments that store one link in row [count]. *)
Definition store_link (count : nat) (p : Vect3D R) (q : Quat R) (m : Matrix R)
  : Matrix R :=
  let m0 := set_coeff m count 0 (vx p) in
  let m1 := set_coeff m0 count 1 (vy p) in
  let m2 := set_coeff m1 count 2 (vz p) in
  let m3 := set_coeff m2 count 3 (qx q) in
  let m4 := set_coeff m3 count 4 (qy q) in
  let m5 := set_coeff m4 count 5 (qz q) in
  set_coeff m5 count 6 (qw q).

(** The three assignments that store one link's angles in row [count]. *)
Definition store_angles (count : nat) (a : Vect3D R) (m : Matrix R) : Matrix R :=
  let m0 := set_coeff m count 0 (vx a) in
  let m1 := set_coeff m0 count 1 (vy a) in
  set_coeff m1 count 2 (vz a).

(** The nested loops shared by the pose getters: [i] runs over
    [jointPositions], [j] over [jointPositions[i]], [count] is incremented
    after every link. [write count i j] does the assignments of the loop
    body. *)
Definition for_each_link {A : Type} (jointPositions : list (list A))
    (write : nat -> nat -> nat -> Matrix R -> Matrix R) (m : Matrix R) : Matrix R :=
  (foldl (fun '(count, acc) i =>
            foldl (fun '(count, acc) j => (S count, write count i j acc))
                  (count, acc)
                  (seq 0 (length (default [] (jointPositions !! i)))))
         (0, m) (seq 0 (length jointPositions))).2.

Definition zero3 : Vect3D R := mkVect3D szero szero szero.
Definition zero4 : Quat R := mkQuat szero szero szero szero.

(** GloveControlHelper::getGlovePose; [resp] is what
    [m_glove.GetGlovePose] delivers, [None] when it returns false. The
    result is the returned flag with the value left in [measuredValue]. *)
Definition getGlovePose (resp : option (SG_GlovePose R)) (g : GCH)
  : (bool * Matrix R) * GCH :=
  match resp with
  | None => ((true, m_glovePose g), g)
  | Some glovePose =>
      let pose :=
        for_each_link (gp_jointPositions glovePose)
          (fun count i j =>
             store_link count (at2 zero3 (gp_jointPositions glovePose) i j)
                        (at2 zero4 (gp_jointRotations glovePose) i j))
          (m_glovePose g) in
      ((true, pose), with_glovePose pose g)
  end.

(** GloveControlHelper::getSensorData; [resp] is the angle sequence of the
    sensor data that [m_glove.GetSensorData] delivers. *)
Definition getSensorData (resp : option (list F)) (g : GCH)
  : (bool * list F) * GCH :=
  match resp with
  | None => ((true, m_sensorData g), g)
  | Some angles => ((true, angles), with_sensorData angles g)
  end.

(** GloveControlHelper::getHandPose. *)
Definition getHandPose (resp : option (HandPose R)) (g : GCH)
  : (bool * Matrix R) * GCH :=
  match resp with
  | None => ((true, m_handPose g), g)
  | Some handPose =>
      let pose :=
        for_each_link (hp_jointPositions handPose)
          (fun count i j =>
             store_link count (at2 zero3 (hp_jointPositions handPose) i j)
                        (at2 zero4 (hp_jointRotations handPose) i j))
          (m_handPose g) in
      ((true, pose), with_handPose pose g)
  end.

(** GloveControlHelper::getHandJointsAngles(): the loop bounds come from
    [jointPositions], the values from [handAngles]. *)
Definition getHandJointsAngles (resp : option (HandPose R)) (g : GCH) : bool * GCH :=
  match resp with
  | None => (true, g)
  | Some handPose =>
      (true,
       with_handJointsAngles
         (for_each_link (hp_jointPositions handPose)
            (fun count i j => store_angles count (at2 zero3 (hp_handAngles handPose) i j))
            (m_handJointsAngles g))
         g)
  end.

(** The fifteen assignments of getHandJointsAngles(std::vector<double>&),
    in the order of the source: (index into the list, row, column). *)
Definition jointAngle_assignments : list (nat * (nat * nat)) :=
  [(0, (0, 2)); (1, (1, 1)); (2, (2, 1));
   (3, (4, 2)); (4, (5, 1)); (5, (6, 1));
   (6, (8, 1)); (7, (9, 1)); (8, (10, 1));
   (9, (12, 1)); (10, (13, 1)); (11, (14, 1));
   (12, (16, 1)); (13, (17, 1)); (14, (18, 1))].

(** GloveControlHelper::getHandJointsAngles(std::vector<double>&). The
    caller's vector is resized to the number of joint names, new entries
    being [0.0], and fifteen entries are assigned; an assignment past the
    end of the vector is undefined behaviour in the source and changes
    nothing here. *)
Definition getHandJointsAngles_list (resp : option (HandPose R))
    (jointAngleList : list R) (g : GCH) : (bool * list R) * GCH :=
  let g1 := (getHandJointsAngles resp g).2 in
  let resized := vresize (length (m_humanJointNameList g1)) jointAngleList in
  ((true,
    foldl (fun l '(k, (r, c)) => <[k := coeffAt (m_handJointsAngles g1) r c]> l)
          resized jointAngle_assignments),
   g1).

(** GloveControlHelper::getHandJointsAngles(Eigen::MatrixXd): the parameter
    is passed by value, and the body has no [return] statement. *)
Definition getHandJointsAngles_matrix (measuredValue : Matrix R) (g : GCH)
  : Status * GCH :=
  (None, g).

(** A series of calls of [getSensorData], one per answer of the glove. *)
Definition sensor_reads (resps : list (option (list F))) (g : GCH) : GCH :=
  foldl (fun st resp => (getSensorData resp st).2) g resps.

(** The row a link occupies in a pose matrix, and the row its angles
    occupy in the angle matrix. *)
Definition link_row (l : Vect3D R * Quat R) : list R :=
  [vx l.1; vy l.1; vz l.1; qx l.2; qy l.2; qz l.2; qw l.2].

Definition angles_row (a : Vect3D R) : list R := [vx a; vy a; vz a].

(** Two vectors of vectors with the same number of entries everywhere. *)
Definition same_shape {A B : Type} (l : list (list A)) (k : list (list B)) : Prop :=
  Forall2 (fun p q => length p = length q) l k.

(** The entry of the joint-angle list for joint [k] of finger [f]: row
    [4 f + k] of the angle matrix, the third column for the first joint of
    thumb and index and the second column otherwise. *)
Definition joint_source (f k : nat) : nat * nat :=
  (4 * f + k, if bool_decide (k = 0 /\ f < 2) then 2 else 1).

End GloveHelper.
End GloveHelper.

(** ** HapticGloveModule: configuration and the remaining methods *)

(** The YARP resource finder and the look-ups HapticGloveModule::configure
    makes on it: [rf.isNull()], YarpHelper::getStringFromSearchable,
    [rf.findGroup(key)], [Bottle::append], and
    [c.check(key, yarp::os::Value(d)).asDouble()]. [literal_0_1] is the
    [double] literal [0.1]. *)
Class ResourceFinderLib (R RF Config : Type) := {
  rf_isNull : RF -> bool;
  getStringFromSearchable : RF -> string -> option string;
  findGroup : RF -> string -> Config;
  bottle_append : Config -> Config -> Config;
  check_asDouble : Config -> string -> R -> R;
  literal_0_1 : R
}.

(** The members of HapticGloveModule that only [configure] writes. *)
Record ModuleSettings (R : Type) := mkSettings {
  m_dT : R;
  m_moveRobot : bool;
  m_enableLogger : bool;
  module_name : string
}.
Arguments mkSettings {R} _ _ _ _.
Arguments m_dT {R} _.
Arguments m_moveRobot {R} _.
Arguments m_enableLogger {R} _.
Arguments module_name {R} _.

(** FingersRetargeting::configure, under a name that stays visible inside
    the module below. *)
Abbreviation fingers_configure := configure.

Module ModuleSetup.
Section ModuleSetup.
Context {R RF Config : Type}
  `{!Scalar R, !Libm R, !EigenLib R, !IntegratorLib R,
    !ConfigSource R Config, !ResourceFinderLib R RF Config}.

(** HapticGloveModule::openLogger: with and without ENABLE_LOGGER the
    function ends in [return true]. *)
Definition openLogger (m : HapticGloveModule R) : bool * HapticGloveModule R :=
  (true, m).

(** HapticGloveModule::configure on a freshly constructed module. [None]
    stands for [return false]. [rdLeft] and [rdRight] are what the robot
    delivers to the read inside each hand's [configure]. *)
Definition configure (rf : RF) (rdLeft rdRight : Reading R)
  : option (ModuleSettings R * HapticGloveModule R) :=
  if rf_isNull rf then None
  else
    name ← getStringFromSearchable rf "name";
    let generalOptions := findGroup rf "GENERAL" in
    let dT := check_asDouble generalOptions "samplingTime" literal_0_1 in
    let moveRobot := check_asBool generalOptions "enableMoveRobot" true in
    let enableLogger := check_asBool generalOptions "enableLogger" false in
    let leftFingersOptions :=
      bottle_append (findGroup rf "LEFT_FINGERS_RETARGETING") generalOptions in
    leftHandFingers ← fingers_configure leftFingersOptions name rdLeft;
    let rightFingersOptions :=
      bottle_append (findGroup rf "RIGHT_FINGERS_RETARGETING") generalOptions in
    rightHandFingers ← fingers_configure rightFingersOptions name rdRight;
    let noLeftAxis := getActuatedDoFs (controlHelper leftHandFingers) in
    let noLeftJoints := getNumberOfJoints (controlHelper leftHandFingers) in
    let noRightAxis := getActuatedDoFs (controlHelper rightHandFingers) in
    let noRightJoints := getNumberOfJoints (controlHelper rightHandFingers) in
    let m0 :=
      mkModule Configured szero szero leftHandFingers rightHandFingers
        (vresize noLeftAxis []) (vresize noLeftAxis [])
        (vresize noLeftJoints []) (vresize noLeftJoints [])
        (vresize noRightAxis []) (vresize noRightAxis [])
        (vresize noRightJoints []) (vresize noRightJoints []) in
    let '(ok, m1) := if enableLogger then openLogger m0 else (true, m0) in
    if negb ok then None
    else Some (mkSettings dT moveRobot enableLogger name, with_state Configured m1).

(** HapticGloveModule::getPeriod. *)
Definition getPeriod (st : ModuleSettings R) : R := m_dT st.

(** HapticGloveModule::close: the flush of the logger does not change the
    module. *)
Definition close (m : HapticGloveModule R) : bool := true.

(** HapticGloveModule::evaluateRobotFingersReferences. *)
Definition evaluateRobotFingersReferences (m : HapticGloveModule R) : bool := true.

End ModuleSetup.
End ModuleSetup.

(** ** Further instances for evaluation *)

Module DoubleGlove.
Import Double.

(** [(int) std::round(x)] on binary64: the magnitude [m * 2^e] is rounded
    half away from zero. Infinities and NaN, for which the C++ conversion
    is undefined, give 0. *)
Definition round_half_away (x : float) : Z :=
  match Prim2SF x with
  | S754_finite s m e =>
      let magnitude :=
        if (0 <=? e)%Z then (Z.pos m * 2 ^ e)%Z
        else ((Z.pos m + 2 ^ (- e - 1)) / 2 ^ (- e))%Z in
      if s then (- magnitude)%Z else magnitude
  | _ => 0%Z
  end.

(** The conversion of an [int] to [double], for the magnitudes the helper
    uses. *)
Definition float_of_Z (z : Z) : float :=
  if (z <? 0)%Z then PrimFloat.opp (PrimFloat.of_uint63 (Uint63.of_Z (- z)))
  else PrimFloat.of_uint63 (Uint63.of_Z z).

#[export] Instance double_CMath : CMath float := {|
  sltb := PrimFloat.ltb;
  sdiv := PrimFloat.div;
  sofZ := float_of_Z;
  round_to_int := round_half_away
|}.

(** Stand-in for the glove's configuration source: a table from keys to
    lists of strings. *)
#[export] Instance names_GloveConfigSource
  : GloveConfigSource (gmap string (list string)) (list string) := {|
  check_value := fun c key => c !! key;
  yarpListToStringVector := fun v => Some v
|}.

(** Stand-in for the resource finder: a name and a table of groups. A key
    looked up in an appended bottle is found in the first bottle that has
    it. *)
Record Finder := mkFinder {
  finder_null : bool;
  finder_name : option string;
  finder_groups : gmap string Table
}.

#[export] Instance finder_ResourceFinderLib : ResourceFinderLib float Finder Table := {|
  rf_isNull := finder_null;
  getStringFromSearchable := fun rf key =>
    if String.eqb key "name" then finder_name rf else None;
  findGroup := fun rf key => default (mkTable None ∅) (finder_groups rf !! key);
  bottle_append := fun a b =>
    mkTable (table_robot a) (table_entries a ∪ table_entries b);
  check_asDouble := fun c key d =>
    match table_entries c !! key with Some (VDouble x) => x | _ => d end;
  literal_0_1 := 0x1.999999999999ap-4%float
|}.

(** *** Sample data *)

Definition joint_names : list string :=
  ["t0"; "t1"; "t2"; "i0"; "i1"; "i2"; "m0"; "m1"; "m2";
   "r0"; "r1"; "r2"; "p0"; "p1"; "p2"].

Definition glove_names : gmap string (list string) :=
  <["human_joint_list" := joint_names]>
    (<["human_finger_list" := ["thumb"; "index"; "middle"; "ring"; "pinkie"]]> ∅).

(** The helper [configure] builds from [glove_names] for a right hand. *)
Definition glove0 : GloveControlHelper float float :=
  mkGlove false 5 5 20 30 20 true (replicate 5 0%Z) (replicate 5 0%Z)
    (GloveHelper.MatrixZero 30 7) (GloveHelper.MatrixZero 20 7)
    (GloveHelper.MatrixZero 20 3) [] joint_names
    ["thumb"; "index"; "middle"; "ring"; "pinkie"] [].

(** A glove pose of two fingers with two and one links. *)
Definition pose_sample : SG_GlovePose float :=
  mkGlovePose
    [[mkVect3D 1 2 3; mkVect3D 4 5 6]; [mkVect3D 7 8 9]]%float
    [[mkQuat 0 0 0 1; mkQuat 0 0 1 0]; [mkQuat 0 1 0 0]]%float.

(** A hand pose of five fingers with four links each; the angles of link
    [j] of finger [i] are [(10 i + j, 10 i + j + 0.25, 10 i + j + 0.5)]. *)
Definition hand_sample : HandPose float :=
  let link (i j : Z) :=
    let b := float_of_Z (10 * i + j) in
    mkVect3D b (b + 0.25)%float (b + 0.5)%float in
  let finger (i : Z) := [link i 0%Z; link i 1%Z; link i 2%Z; link i 3%Z] in
  let fingers := [finger 0%Z; finger 1%Z; finger 2%Z; finger 3%Z; finger 4%Z] in
  mkHandPose fingers (replicate 5 (replicate 4 (mkQuat 0 0 0 1)%float)) fingers.

(** A resource finder with the GENERAL group and one group per hand. *)
Definition general_group : Table :=
  mkTable None
    (<["samplingTime" := VDouble 0.5%float]> (<["enableLogger" := VBool true]> ∅)).

Definition hand_group : Table :=
  mkTable (Some robot) (<["fingersScaling" := VList [2; 0.5]%float]> ∅).

Definition finder0 : Finder :=
  mkFinder false (Some "HapticGloveRetargeting")
    (<["GENERAL" := general_group]>
       (<["LEFT_FINGERS_RETARGETING" := hand_group]>
          (<["RIGHT_FINGERS_RETARGETING" := hand_group]> ∅))).

(** A calibrating hand whose integrator was never created. *)
Definition fingers_no_integrator : FingersRetargeting float :=
  with_fingerIntegrator None fingers0.


(** A table for the coupled mode without calibration. *)
Definition coupled_table : Table :=
  mkTable (Some robot)
    (<["samplingTime" := VDouble 0.5%float]>
       (<["fingersScaling" := VList [2; 0.5]%float]>
          (<["motorsJointsCoupled" := VBool true]>
             (<["CouplingMatrix" := VList [1; 0; 0; 1; 1; 1]%float]> ∅)))).

(** The settings [HapticGloveModule::configure] reads from [finder0]. *)
Definition settings0 : ModuleSettings float :=
  mkSettings 0.5%float true true "HapticGloveRetargeting".

(** A running module whose right reference buffer has one entry more than
    the left hand has axes. *)
Definition module_uneven : HapticGloveModule float :=
  mkModule Running 0%float 0%float fingers_idle fingers_idle
    [0; 0]%float [0; 0]%float [0; 0; 0]%float [0; 0; 0]%float
    [9; 9; 9]%float [0; 0]%float [0; 0; 0]%float [0; 0; 0]%float.

End DoubleGlove.

(** * Properties *)

(** ** Lists and matrices *)

Section ListFacts.
Context {R : Type} `{!Scalar R}.

Lemma vget_lookup (v : list R) (i : nat) (x : R) : v !! i = Some x -> vget v i = x.
Proof. unfold vget. by intros ->. Qed.

(** An index-by-index loop that overwrites the first [k] entries. *)
Lemma foldl_insert_prefix {A : Type} (f : nat -> A) (k : nat) (d : list A) :
  k <= length d ->
  foldl (fun acc i => <[i := f i]> acc) d (seq 0 k) = (f <$> seq 0 k) ++ drop k d.
Proof.
  induction k as [|k IH]; intros Hk.
  - by rewrite drop_0.
  - rewrite seq_S, foldl_app, IH by lia. simpl.
    destruct (lookup_lt_is_Some_2 d k) as [x Hx]; [lia|].
    rewrite fmap_app, <- (assoc_L app). simpl.
    rewrite insert_app_r_alt by (rewrite length_fmap, length_seq; lia).
    rewrite length_fmap, length_seq, Nat.sub_diag.
    by rewrite (drop_S _ _ _ Hx).
Qed.

Lemma foldl_insert_length {A : Type} (f : nat -> A) (l : list nat) (d : list A) :
  length (foldl (fun acc i => <[i := f i]> acc) d l) = length d.
Proof.
  revert d. induction l as [|i l IH]; intros d; simpl; [done|].
  by rewrite IH, length_insert.
Qed.

Lemma foldl_insert_all {A : Type} (f : nat -> A) (d : list A) :
  foldl (fun acc i => <[i := f i]> acc) d (seq 0 (length d)) = f <$> seq 0 (length d).
Proof. rewrite foldl_insert_prefix by lia. by rewrite drop_all, app_nil_r. Qed.

(** Reading two vectors index by index is zipping them. *)
Lemma fmap_seq_zip_with (g : R -> R -> R) (v w : list R) :
  length v = length w ->
  (fun i => g (vget v i) (vget w i)) <$> seq 0 (length v) = zip_with g v w.
Proof.
  revert w. induction v as [|x v IH]; intros [|y w] Hlen; simplify_eq/=; [done|].
  f_equal. rewrite <- fmap_S_seq, <- list_fmap_compose. by apply IH.
Qed.

Lemma tabulate_nrows (r c : nat) (f : nat -> nat -> R) : nrows (tabulate r c f) = r.
Proof. unfold nrows, tabulate. simpl. by rewrite length_fmap, length_seq. Qed.

Lemma tabulate_ncols (r c : nat) (f : nat -> nat -> R) : ncols (tabulate r c f) = c.
Proof. reflexivity. Qed.

Lemma coeffAt_tabulate (r c : nat) (f : nat -> nat -> R) (i j : nat) :
  i < r -> j < c -> coeffAt (tabulate r c f) i j = f i j.
Proof.
  intros Hi Hj. unfold coeffAt, tabulate. simpl.
  rewrite list_lookup_fmap, lookup_seq_lt by done. simpl.
  apply vget_lookup. by rewrite list_lookup_fmap, lookup_seq_lt.
Qed.

(** Outside its rows a tabulated matrix reads as zero. *)
Lemma coeffAt_tabulate_row_ge (r c : nat) (f : nat -> nat -> R) (i j : nat) :
  r <= i -> coeffAt (tabulate r c f) i j = szero.
Proof.
  intros Hi. unfold coeffAt, tabulate. simpl.
  rewrite (lookup_ge_None_2 _ i) by (rewrite length_fmap, length_seq; lia).
  reflexivity.
Qed.

Lemma coeffAt_row_ge (m : Matrix R) (i j : nat) : nrows m <= i -> coeffAt m i j = szero.
Proof.
  intros Hi. unfold coeffAt. by rewrite (lookup_ge_None_2 _ i).
Qed.

Lemma tabulate_wf (r c : nat) (f : nat -> nat -> R) :
  Forall (fun row => length row = c) (mrows (tabulate r c f)).
Proof.
  unfold tabulate. simpl. apply Forall_fmap, Forall_forall. intros i _. simpl.
  by rewrite length_fmap, length_seq.
Qed.

End ListFacts.

(** ** The reference setters *)

Section SetterFacts.
Context {R : Type} `{!Scalar R, !Libm R, !EigenLib R, !IntegratorLib R}.

Lemma setFingersAxisReference_ok (v : list R) (s : FingersRetargeting R) :
  length v = length (m_desiredMotorValue s) ->
  length (m_fingersScaling s) = length (m_desiredMotorValue s) ->
  setFingersAxisReference v s
  = (true, with_desiredMotorValue (zip_with smul v (m_fingersScaling s)) s).
Proof.
  intros Hv Hsc. unfold setFingersAxisReference.
  rewrite bool_decide_false by (intros Hne; by apply Hne).
  do 2 f_equal. rewrite Hv, foldl_insert_all, <- Hv.
  apply fmap_seq_zip_with. congruence.
Qed.

Lemma setFingersAxisReference_size_mismatch (v : list R) (s : FingersRetargeting R) :
  length v <> length (m_desiredMotorValue s) ->
  setFingersAxisReference v s = (false, s).
Proof.
  intros Hne. unfold setFingersAxisReference. by rewrite bool_decide_true.
Qed.

(** The setter only ever touches the desired motor command. *)
Lemma setFingersAxisReference_frame (v : list R) (s : FingersRetargeting R) :
  exists d, (setFingersAxisReference v s).2 = with_desiredMotorValue d s
            /\ length d = length (m_desiredMotorValue s).
Proof.
  unfold setFingersAxisReference. case_bool_decide as Hlen; simpl.
  - exists (m_desiredMotorValue s). by destruct s.
  - eexists. split; [reflexivity|]. apply foldl_insert_length.
Qed.

Lemma mmul_entry (a b : Matrix R) (i j : nat) :
  i < nrows a -> j < ncols b ->
  coeffAt (mmul a b) i j
  = vsum ((fun k => smul (coeffAt a i k) (coeffAt b k j)) <$> seq 0 (ncols a)).
Proof. intros Hi Hj. unfold mmul. by rewrite coeffAt_tabulate. Qed.

(** The first column of a product with a one-column matrix holding [v] is
    the matrix-vector product. *)
Lemma mmul_one_column (a b : Matrix R) (v : list R) :
  wf_matrix a -> ncols a = length v -> 0 < ncols b ->
  (forall k, k < length v -> coeffAt b k 0 = vget v k) ->
  (fun i => coeffAt (mmul a b) i 0) <$> seq 0 (nrows a) = mat_vec a v.
Proof.
  intros Hwf Hc Hb Hcol. unfold mat_vec. apply list_eq. intros i.
  rewrite !list_lookup_fmap.
  destruct (decide (i < nrows a)) as [Hi|Hi].
  - rewrite lookup_seq_lt by done. simpl.
    destruct (lookup_lt_is_Some_2 (mrows a) i Hi) as [row Hrow].
    rewrite Hrow. simpl. f_equal. rewrite mmul_entry by done. f_equal.
    assert (Hlen : length row = length v).
    { unfold wf_matrix in Hwf. rewrite Forall_lookup in Hwf.
      rewrite (Hwf _ _ Hrow). done. }
    rewrite Hc, <- Hlen, <- fmap_seq_zip_with by done.
    apply list_fmap_ext. intros n k Hk.
    apply lookup_seq in Hk as [-> Hk]. simpl.
    rewrite Hcol by lia. unfold coeffAt. by rewrite Hrow.
  - rewrite (lookup_ge_None_2 (seq 0 (nrows a))) by (rewrite length_seq; lia).
    rewrite (lookup_ge_None_2 (mrows a)) by (unfold nrows in Hi; lia). done.
Qed.

(** C3. For every axis vector [v] whose size is the configured axis count
    (the size [configure] gives both to the stored command and to the
    scaling vector), [setFingersAxisReference v] returns [true] and stores
    as the desired motor command the vector whose [i]-th entry is [v(i)]
    times the [i]-th scaling entry, nothing else changes, and a second call
    with the same [v] returns [true] and leaves the state as it is after
    the first. *)
Theorem setFingersAxisReference_scales_and_is_idempotent
    (v : list R) (s : FingersRetargeting R) :
  length (m_desiredMotorValue s) = getActuatedDoFs (m_controlHelper s) ->
  length (m_fingersScaling s) = getActuatedDoFs (m_controlHelper s) ->
  length v = getActuatedDoFs (m_controlHelper s) ->
  let s' := with_desiredMotorValue (zip_with smul v (m_fingersScaling s)) s in
  setFingersAxisReference v s = (true, s')
  /\ m_desiredMotorValue s' = zip_with smul v (m_fingersScaling s)
  /\ setFingersAxisReference v s' = (true, s').
Proof.
  intros Hd Hsc Hv s'. split; [|split].
  - apply setFingersAxisReference_ok; congruence.
  - reflexivity.
  - rewrite setFingersAxisReference_ok.
    + reflexivity.
    + subst s'. simpl. rewrite length_zip_with. lia.
    + subst s'. simpl. rewrite length_zip_with. lia.
Qed.

(** C4. A vector whose size differs from the size of the stored motor
    command makes [setFingersAxisReference] return [false], a vector whose
    size differs from the size of the stored joint reference makes
    [setFingersJointReference] return [false], and in both cases the whole
    object, the stored references included, is unchanged. *)
Theorem setters_reject_wrong_size
    (va vj : list R) (s : FingersRetargeting R) :
  length va <> length (m_desiredMotorValue s) ->
  length vj <> length (m_desiredJointValue s) ->
  setFingersAxisReference va s = (false, s)
  /\ setFingersJointReference vj s = (false, s).
Proof.
  intros Ha Hj. split.
  - by apply setFingersAxisReference_size_mismatch.
  - unfold setFingersJointReference. by rewrite bool_decide_true.
Qed.

(** C5. For every joint vector whose size is the configured joint count,
    [setFingersJointReference] returns [true] and the state it leaves is the
    one [setFingersAxisReference] leaves when given the matrix-vector
    product [m_controlCoeff * jointRef]; [m_controlCoeff] is taken to be an
    axes x joints matrix. *)
Theorem setFingersJointReference_projects_then_delegates
    (jointRef : list R) (s : FingersRetargeting R) :
  length (m_desiredJointValue s) = getNumberOfJoints (m_controlHelper s) ->
  length jointRef = getNumberOfJoints (m_controlHelper s) ->
  wf_matrix (m_controlCoeff s) ->
  nrows (m_controlCoeff s) = getActuatedDoFs (m_controlHelper s) ->
  ncols (m_controlCoeff s) = getNumberOfJoints (m_controlHelper s) ->
  setFingersJointReference jointRef s
  = (true, (setFingersAxisReference (mat_vec (m_controlCoeff s) jointRef) s).2).
Proof.
  intros Hd Hv Hwf Hr Hc. unfold setFingersJointReference.
  rewrite bool_decide_false by (intros Hne; apply Hne; congruence).
  cbv zeta. do 3 f_equal. rewrite <- Hr.
  apply mmul_one_column; [done|congruence|simpl; lia|].
  intros k Hk. by rewrite coeffAt_tabulate by lia.
Qed.

Lemma LogRandom_inactive (g : bool) (rnd : nat -> R) (s : FingersRetargeting R) :
  calibrating s = false ->
  LogDataToCalibrateRobotMotorsJointsCouplingRandom g rnd s = (true, s).
Proof.
  unfold calibrating, LogDataToCalibrateRobotMotorsJointsCouplingRandom.
  by destruct (m_motorJointsCoupled s), (m_doCalibration s).
Qed.

Lemma LogSin_inactive (t : R) (a : nat) (s : FingersRetargeting R) :
  calibrating s = false ->
  LogDataToCalibrateRobotMotorsJointsCouplingSin t a s = (true, s).
Proof.
  unfold calibrating, LogDataToCalibrateRobotMotorsJointsCouplingSin.
  by destruct (m_motorJointsCoupled s), (m_doCalibration s).
Qed.

(** C8. When [m_motorJointsCoupled] or [m_doCalibration] is false, both
    calibration-session operations return [true] and leave the whole
    object unchanged: sample logs, stored references and the command held
    by the actuator collaborator. *)
Theorem calibration_operations_are_noops_outside_calibration
    (s : FingersRetargeting R)
    (generateRandomVelocity : bool) (rnd : nat -> R) (time : R) (axisNumber : nat) :
  m_motorJointsCoupled s = false \/ m_doCalibration s = false ->
  LogDataToCalibrateRobotMotorsJointsCouplingRandom generateRandomVelocity rnd s = (true, s)
  /\ LogDataToCalibrateRobotMotorsJointsCouplingSin time axisNumber s = (true, s).
Proof.
  intros Hflags.
  assert (Hcal : calibrating s = false).
  { unfold calibrating. destruct Hflags as [-> | ->]; [done|apply andb_false_r]. }
  split; [by apply LogRandom_inactive | by apply LogSin_inactive].
Qed.

End SetterFacts.

(** ** The sample logs *)

Section LogFacts.
Context {R : Type} `{!Scalar R, !Libm R, !EigenLib R, !IntegratorLib R}.

Lemma push_back_row_matching (m : Matrix R) (n : nat) (f : nat -> nat -> R) :
  ncols m = 0 \/ ncols m = n ->
  push_back_row m (tabulate 1 n f) = (true, mkMatrix n (mrows m ++ [f 0 <$> seq 0 n])).
Proof.
  intros Hc. unfold push_back_row.
  replace (bool_decide (ncols m ≠ 0) && bool_decide (ncols m ≠ ncols (tabulate 1 n f)))
    with false.
  - simpl. do 4 f_equal. apply list_fmap_ext. intros k j Hj.
    apply lookup_seq in Hj as [-> Hj]. simpl. by rewrite coeffAt_tabulate by lia.
  - symmetry. apply andb_false_iff. simpl.
    destruct Hc as [Hc|Hc]; [left|right]; by rewrite bool_decide_false by (intros Hne; by apply Hne).
Qed.

Lemma record_sample_ready (s : FingersRetargeting R) :
  session_ready s ->
  record_sample s
  = inr (with_jointsData
           (mkMatrix (getNumberOfJoints (m_controlHelper s))
              (mrows (m_jointsData s)
                 ++ [sample_row (getNumberOfJoints (m_controlHelper s))
                       (analogSensors (m_controlHelper s))]))
           (with_motorsData
              (mkMatrix (getActuatedDoFs (m_controlHelper s))
                 (mrows (m_motorsData s)
                    ++ [sample_row (getActuatedDoFs (m_controlHelper s))
                          (jointEncoders (m_controlHelper s))]))
              s)).
Proof.
  intros (Hrows & Hcm & Hcj & Hint). unfold record_sample.
  rewrite push_back_row_matching by (by right). simpl.
  rewrite push_back_row_matching by (by right). reflexivity.
Qed.

(** What a record operation does during a calibration session. *)
Lemma record_call_active (c : SessionCall) (s : FingersRetargeting R) :
  session_ready s -> is_record_call c = true -> calibrating s = true ->
  exists s',
    session_call c s = (true, s')
    /\ m_motorsData s'
       = mkMatrix (getActuatedDoFs (m_controlHelper s))
           (mrows (m_motorsData s)
              ++ [sample_row (getActuatedDoFs (m_controlHelper s))
                    (jointEncoders (m_controlHelper s))])
    /\ m_jointsData s'
       = mkMatrix (getNumberOfJoints (m_controlHelper s))
           (mrows (m_jointsData s)
              ++ [sample_row (getNumberOfJoints (m_controlHelper s))
                    (analogSensors (m_controlHelper s))])
    /\ getActuatedDoFs (m_controlHelper s') = getActuatedDoFs (m_controlHelper s)
    /\ getNumberOfJoints (m_controlHelper s') = getNumberOfJoints (m_controlHelper s)
    /\ is_Some (m_fingerIntegrator s').
Proof.
  intros Hready Hrec Hcal.
  pose proof Hready as (Hrows & Hcm & Hcj & [integ Hint]).
  apply andb_true_iff in Hcal as [Hcoupled Hdo].
  destruct c as [rd|g rnd|t a|v|v|]; try discriminate; simpl.
  - unfold LogDataToCalibrateRobotMotorsJointsCouplingRandom.
    rewrite Hcoupled, Hdo, Hint, record_sample_ready by done. simpl.
    match goal with |- context [integrate integ ?x] => destruct (integrate integ x) as [integ' mref] end.
    match goal with |- context [setFingersAxisReference ?v ?st] =>
      destruct (setFingersAxisReference_frame v st) as (d & -> & _) end.
    eexists. split; [reflexivity|]. simpl. by destruct g.
  - unfold LogDataToCalibrateRobotMotorsJointsCouplingSin.
    rewrite Hcoupled, Hdo, Hint, record_sample_ready by done. simpl.
    match goal with |- context [setFingersAxisReference ?v ?st] =>
      destruct (setFingersAxisReference_frame v st) as (d & -> & _) end.
    eexists. split; [reflexivity|]. simpl. done.
Qed.

(** Every other call, and every call outside a calibration session, leaves
    the logs alone. *)
Lemma other_call_keeps_logs (c : SessionCall) (s : FingersRetargeting R) :
  is_record_call c && calibrating s = false ->
  m_motorsData (session_call c s).2 = m_motorsData s
  /\ m_jointsData (session_call c s).2 = m_jointsData s
  /\ getActuatedDoFs (m_controlHelper (session_call c s).2)
     = getActuatedDoFs (m_controlHelper s)
  /\ getNumberOfJoints (m_controlHelper (session_call c s).2)
     = getNumberOfJoints (m_controlHelper s)
  /\ m_fingerIntegrator (session_call c s).2 = m_fingerIntegrator s.
Proof.
  intros Hc. destruct c as [rd|g rnd|t a|v|v|]; simpl in *.
  - unfold updateFeedback, controlHelper. by destruct rd as [[axes joints]|].
  - by rewrite LogRandom_inactive.
  - by rewrite LogSin_inactive.
  - by destruct (setFingersAxisReference_frame v s) as (d & -> & _).
  - unfold setFingersJointReference. case_bool_decide; simpl; [done|].
    match goal with |- context [setFingersAxisReference ?v ?st] =>
      by destruct (setFingersAxisReference_frame v st) as (d & -> & _) end.
  - done.
Qed.

End LogFacts.

Section SessionFacts.
Context {R Config : Type}
  `{!Scalar R, !Libm R, !EigenLib R, !IntegratorLib R, !ConfigSource R Config}.

Lemma session_call_ready (c : SessionCall) (s : FingersRetargeting R) :
  session_ready s -> session_ready (session_call c s).2.
Proof.
  intros Hready. pose proof Hready as (Hrows & Hcm & Hcj & Hint).
  destruct (is_record_call c && calibrating s) eqn:Hc.
  - apply andb_true_iff in Hc as [Hrec Hcal].
    destruct (record_call_active c s Hready Hrec Hcal)
      as (s' & -> & Hm & Hj & Ha & Hn & Hi).
    simpl. unfold session_ready. rewrite Hm, Hj, Ha, Hn. simpl.
    unfold nrows in *. simpl. rewrite !length_app, Hrows. done.
  - destruct (other_call_keeps_logs c s Hc) as (Hm & Hj & Ha & Hn & Hi).
    unfold session_ready. by rewrite Hm, Hj, Ha, Hn, Hi.
Qed.

Lemma session_ready_preserved (cs : list SessionCall) (s : FingersRetargeting R) :
  session_ready s -> session_ready (session cs s).
Proof.
  unfold session. revert s. induction cs as [|c cs IH]; intros s Hready; simpl; [done|].
  by apply IH, session_call_ready.
Qed.

(** [configure] leaves both logs without rows, sized to the axis and joint
    counts, and constructs the integrator. *)
Lemma configure_ready (config : Config) (name : string) (rd : Reading R)
    (s0 : FingersRetargeting R) :
  configure config name rd = Some s0 ->
  session_ready s0 /\ mrows (m_motorsData s0) = [] /\ mrows (m_jointsData s0) = [].
Proof.
  unfold configure. intros Hcfg.
  destruct (helper_configure config name false) as [h|]; simpl in Hcfg; [|done].
  destruct (getDoubleFromSearchable config "samplingTime") as [Ts|]; simpl in Hcfg; [|done].
  destruct (getYarpVectorFromSearchable config "fingersScaling" _) as [sc|];
    simpl in Hcfg; [|done].
  match type of Hcfg with (?a ≫= _) = _ => destruct a as [A|] end; simpl in Hcfg; [|done].
  unfold updateFeedback, controlHelper in Hcfg. simpl in Hcfg.
  destruct (getFeedback rd h) as [ok h'].
  destruct ok; simpl in Hcfg; unfold getLimits in Hcfg;
    (destruct (limits h') as [lim|]; simpl in Hcfg; [|done]);
    simplify_eq; unfold session_ready; simpl; repeat split; eauto.
Qed.

Lemma length_vresize_nil (n : nat) : length (vresize n ([] : list R)) = n.
Proof. unfold vresize. rewrite take_nil, length_app, length_replicate. simpl. lia. Qed.

(** [configure] sizes the stored motor command to the axis count and the
    stored joint reference to the joint count. *)
Lemma configure_sizes (config : Config) (name : string) (rd : Reading R)
    (s0 : FingersRetargeting R) :
  configure config name rd = Some s0 ->
  length (m_desiredMotorValue s0) = getActuatedDoFs (m_controlHelper s0)
  /\ length (m_desiredJointValue s0) = getNumberOfJoints (m_controlHelper s0).
Proof.
  unfold configure. intros Hcfg.
  destruct (helper_configure config name false) as [h|]; simpl in Hcfg; [|done].
  destruct (getDoubleFromSearchable config "samplingTime") as [Ts|]; simpl in Hcfg; [|done].
  destruct (getYarpVectorFromSearchable config "fingersScaling" _) as [sc|];
    simpl in Hcfg; [|done].
  match type of Hcfg with (?a ≫= _) = _ => destruct a as [A|] end; simpl in Hcfg; [|done].
  unfold updateFeedback, controlHelper in Hcfg. simpl in Hcfg.
  assert (Hh : actuatedDoFs (getFeedback rd h).2 = actuatedDoFs h
               /\ numberOfJoints (getFeedback rd h).2 = numberOfJoints h).
  { by destruct rd as [[axes joints]|]. }
  destruct Hh as [Ha Hn].
  destruct (getFeedback rd h) as [ok h']. simpl in Ha, Hn.
  destruct ok; simpl in Hcfg; unfold getLimits in Hcfg;
    (destruct (limits h') as [lim|]; simpl in Hcfg; [|done]);
    simplify_eq; simpl; unfold getActuatedDoFs, getNumberOfJoints;
    rewrite !length_vresize_nil; by rewrite Ha, Hn.
Qed.

(** C10. After [configure] both sample logs have no rows. After any
    sequence of calls on the configured object the two logs have the same
    number of rows. In every state so reached, a record operation made
    while both calibration flags are set returns [true] and appends exactly
    one row to each log, the existing rows staying in place; any other
    call leaves both logs as they are. *)
Theorem sample_logs_grow_in_step
    (config : Config) (name : string) (rd : Reading R)
    (s0 : FingersRetargeting R) (cs : list SessionCall) :
  configure config name rd = Some s0 ->
  (nrows (m_motorsData s0) = 0 /\ nrows (m_jointsData s0) = 0)
  /\ let s := session cs s0 in
     nrows (m_motorsData s) = nrows (m_jointsData s)
     /\ forall c : SessionCall,
          let r := session_call c s in
          if is_record_call c && calibrating s
          then r.1 = true
               /\ mrows (m_motorsData r.2)
                  = mrows (m_motorsData s)
                      ++ [sample_row (getActuatedDoFs (m_controlHelper s))
                            (jointEncoders (m_controlHelper s))]
               /\ mrows (m_jointsData r.2)
                  = mrows (m_jointsData s)
                      ++ [sample_row (getNumberOfJoints (m_controlHelper s))
                            (analogSensors (m_controlHelper s))]
          else m_motorsData r.2 = m_motorsData s /\ m_jointsData r.2 = m_jointsData s.
Proof.
  intros Hcfg. destruct (configure_ready _ _ _ _ Hcfg) as (Hready & Hm & Hj).
  split; [unfold nrows; by rewrite Hm, Hj|].
  intros s. assert (Hs : session_ready s) by by apply session_ready_preserved.
  split; [apply Hs|]. intros c r.
  destruct (is_record_call c && calibrating s) eqn:Hc.
  - apply andb_true_iff in Hc as [Hrec Hcal].
    destruct (record_call_active c s Hs Hrec Hcal) as (s' & Hr & Hm' & Hj' & _).
    subst r. rewrite Hr. simpl. by rewrite Hm', Hj'.
  - destruct (other_call_keeps_logs c s Hc) as (Hm' & Hj' & _). by subst r.
Qed.

End SessionFacts.

(** ** Training the coupling matrix *)

Section TrainFacts.
Context {R : Type} `{!Scalar R, !Libm R, !EigenLib R, !IntegratorLib R}.

Lemma mmul_wf (a b : Matrix R) : wf_matrix (mmul a b).
Proof. unfold wf_matrix, mmul. apply tabulate_wf. Qed.

Lemma mmul_nrows (a b : Matrix R) : nrows (mmul a b) = nrows a.
Proof. unfold mmul. apply tabulate_nrows. Qed.

Lemma transpose_nrows (m : Matrix R) : nrows (transpose m) = ncols m.
Proof. unfold transpose. apply tabulate_nrows. Qed.

Lemma length_column (m : Matrix R) (j : nat) : length (column m j) = nrows m.
Proof. unfold column. by rewrite length_fmap. Qed.

Lemma col_entry (m : Matrix R) (j k : nat) : coeffAt (col m j) k 0 = vget (column m j) k.
Proof.
  unfold col, column. destruct (decide (k < nrows m)) as [Hk|Hk].
  - rewrite coeffAt_tabulate by lia.
    destruct (lookup_lt_is_Some_2 (mrows m) k Hk) as [row Hrow].
    unfold coeffAt. rewrite Hrow. simpl. symmetry. apply vget_lookup.
    by rewrite list_lookup_fmap, Hrow.
  - rewrite coeffAt_tabulate_row_ge by lia. unfold vget.
    rewrite (lookup_ge_None_2 _ k); [done|]. rewrite length_fmap. unfold nrows in Hk. lia.
Qed.

(** Pushing rows of one width onto a matrix that is empty or already has
    that width appends them all. *)
Lemma foldl_push_back_rows (w : nat) (vals : nat -> Matrix R) (l : list nat)
    (acc : Matrix R) :
  (forall i, ncols (vals i) = w) ->
  ncols acc = 0 \/ ncols acc = w ->
  mrows (foldl (fun a i => (push_back_row a (vals i)).2) acc l)
  = mrows acc ++ ((fun i => coeffAt (vals i) 0 <$> seq 0 w) <$> l).
Proof.
  intros Hw. revert acc. induction l as [|i l IH]; intros acc Hacc; simpl.
  - by rewrite app_nil_r.
  - assert (Hpush : push_back_row acc (vals i)
                    = (true, mkMatrix w (mrows acc ++ [coeffAt (vals i) 0 <$> seq 0 w]))).
    { unfold push_back_row. rewrite Hw.
      replace (bool_decide (ncols acc ≠ 0) && bool_decide (ncols acc ≠ w)) with false; [done|].
      symmetry. apply andb_false_iff.
      destruct Hacc as [Hc|Hc]; [left|right];
        by rewrite bool_decide_false by (intros Hne; by apply Hne). }
    rewrite Hpush. simpl. rewrite IH by (by right). simpl.
    by rewrite <- (assoc_L app).
Qed.

(** The row pushed for joint [j] is the least-squares solution for that
    joint's column. *)
Lemma pushed_row_is_mat_vec (coeff joints : Matrix R) (j : nat) :
  wf_matrix coeff -> ncols coeff = nrows joints ->
  coeffAt (transpose (mmul coeff (col joints j))) 0 <$> seq 0 (nrows coeff)
  = mat_vec coeff (column joints j).
Proof.
  intros Hwf Hc.
  rewrite <- (mmul_one_column coeff (col joints j) (column joints j)).
  - apply list_fmap_ext. intros n k Hk. apply lookup_seq in Hk as [-> Hk]. simpl.
    unfold transpose. rewrite coeffAt_tabulate; [done|simpl; lia|].
    by rewrite mmul_nrows.
  - done.
  - by rewrite length_column.
  - simpl. lia.
  - intros k _. apply col_entry.
Qed.

(** The rows assembled by the loop over the joints. *)
Lemma trainCouplingMatrix_rows (s : FingersRetargeting R) :
  m_A s = mempty ->
  nrows (m_motorsData s) = nrows (m_jointsData s) ->
  mrows (m_A (trainCouplingMatrix s).2)
  = estimateCoupling_rows (m_motorsData s) (m_jointsData s)
      (getNumberOfJoints (m_controlHelper s)).
Proof.
  intros HA Hrows.
  unfold trainCouplingMatrix, estimateCoupling_rows. simpl.
  set (coeff := normal_equations_coeff (m_motorsData s)).
  rewrite (foldl_push_back_rows (nrows coeff)
             (fun i => transpose (mmul coeff (col (m_jointsData s) i)))).
  - rewrite HA. simpl. apply list_fmap_ext. intros n j _.
    apply pushed_row_is_mat_vec.
    + apply mmul_wf.
    + subst coeff. unfold normal_equations_coeff. simpl. exact Hrows.
  - intros i. unfold transpose. cbn [ncols tabulate]. apply mmul_nrows.
  - left. by rewrite HA.
Qed.

(** C2. On a hand whose coupling matrix is still empty and whose two sample
    logs have equally many rows, [trainCouplingMatrix] leaves in [m_A] one
    row per joint [j], the vector [coeff * jointsData[:, j]] with
    [coeff = (motorsData^T motorsData)^-1 motorsData^T], and leaves in
    [m_controlCoeff] the matrix [(A^T A)^-1 A^T] of that [A]. Nothing is
    asked of the rank of the motor samples: the same formula is evaluated
    for every log. *)
Theorem trainCouplingMatrix_least_squares (s : FingersRetargeting R) :
  m_A s = mempty ->
  nrows (m_motorsData s) = nrows (m_jointsData s) ->
  let s' := (trainCouplingMatrix s).2 in
  mrows (m_A s')
  = estimateCoupling_rows (m_motorsData s) (m_jointsData s)
      (getNumberOfJoints (m_controlHelper s))
  /\ m_controlCoeff s' = pinv (m_A s').
Proof.
  intros HA Hrows s'. split; [|reflexivity].
  by apply trainCouplingMatrix_rows.
Qed.

(** C1, as the code has it. [trainCouplingMatrix] has no rank check and no
    failure path: for every state, degenerate sample logs included, it does
    not return [false], it leaves the sample logs as they are, and it
    overwrites [m_controlCoeff] with [(A^T A)^-1 A^T] computed from whatever
    the unguarded inversion of [motorsData^T motorsData] has put into
    [m_A]. *)
Theorem trainCouplingMatrix_has_no_rank_guard (s : FingersRetargeting R) :
  let r := trainCouplingMatrix s in
  r.1 <> Some false
  /\ m_controlCoeff r.2 = pinv (m_A r.2)
  /\ m_A r.2
     = foldl (fun a j =>
                (push_back_row a
                   (transpose (mmul (pinv (m_motorsData s)) (col (m_jointsData s) j)))).2)
             (m_A s) (seq 0 (getNumberOfJoints (m_controlHelper s)))
  /\ m_motorsData r.2 = m_motorsData s
  /\ m_jointsData r.2 = m_jointsData s.
Proof. intros r. repeat split. discriminate. Qed.

End TrainFacts.

(** ** The module scheduler *)

Section ModuleFacts.
Context {R : Type} `{!Scalar R, !Libm R, !EigenLib R, !IntegratorLib R}.

(** [getFeedbacks] never reports failure and changes, in the module, only
    the left hand and its two feedback buffers. *)
Lemma getFeedbacks_spec (rd : Reading R) (m : HapticGloveModule R) :
  getFeedbacks rd m
  = (true,
     with_leftFeedback
       (jointEncoders (getFeedback rd (m_controlHelper (m_leftHandFingers m))).2)
       (analogSensors (getFeedback rd (m_controlHelper (m_leftHandFingers m))).2)
       (with_leftHandFingers
          (with_controlHelper (getFeedback rd (m_controlHelper (m_leftHandFingers m))).2
             (m_leftHandFingers m))
          m)).
Proof.
  unfold getFeedbacks, updateFeedback, controlHelper.
  by destruct (getFeedback rd (m_controlHelper (m_leftHandFingers m))) as [[|] h].
Qed.

(** One cycle always returns [true] and advances the scheduler state. *)
Lemma updateModule_fsm (inp : CycleInput R) (m : HapticGloveModule R) :
  (updateModule inp m).1 = true
  /\ m_state (updateModule inp m).2 = fsm_next (m_state m).
Proof.
  unfold updateModule. rewrite getFeedbacks_spec. simpl.
  destruct (m_state m) eqn:Hst; simpl; try done.
  destruct (compute_references _) as [l r]. by simpl.
Qed.

Lemma updateModule_start_time (inp : CycleInput R) (m : HapticGloveModule R) :
  m_timeStarting (updateModule inp m).2
  = match m_state m with
    | InPreparation => timeNow inp
    | _ => m_timeStarting m
    end.
Proof.
  unfold updateModule. rewrite getFeedbacks_spec. simpl.
  destruct (m_state m) eqn:Hst; simpl; try done.
  destruct (compute_references _) as [l r]. by simpl.
Qed.

Lemma runModule_cons (inp : CycleInput R) (rest : list (CycleInput R))
    (m : HapticGloveModule R) :
  runModule (inp :: rest) m = runModule rest (updateModule inp m).2.
Proof.
  simpl. destruct (updateModule_fsm inp m) as [Hok _].
  destruct (updateModule inp m) as [ok m']. simpl in *. by subst ok.
Qed.

Lemma runModule_running (inputs : list (CycleInput R)) (m : HapticGloveModule R) :
  m_state m = Running ->
  m_state (runModule inputs m) = Running
  /\ m_timeStarting (runModule inputs m) = m_timeStarting m.
Proof.
  revert m. induction inputs as [|inp rest IH]; intros m Hm; [done|].
  rewrite runModule_cons.
  destruct (updateModule_fsm inp m) as [_ Hst]. rewrite Hm in Hst.
  destruct (IH _ Hst) as [-> ->].
  by rewrite updateModule_start_time, Hm.
Qed.

(** C6. From [Configured], the first cycle leaves the scheduler in
    [InPreparation]; the second stores its time stamp in [m_timeStarting]
    and leaves the scheduler in [Running]; after any further cycles the
    scheduler is in [Running] with that start time. Every cycle returns
    [true], so the periodic caller never stops. *)
Theorem scheduler_reaches_running_and_stays
    (m : HapticGloveModule R) (inp1 inp2 : CycleInput R) (rest : list (CycleInput R)) :
  m_state m = Configured ->
  m_state (runModule [inp1] m) = InPreparation
  /\ m_state (runModule [inp1; inp2] m) = Running
  /\ m_timeStarting (runModule [inp1; inp2] m) = timeNow inp2
  /\ m_state (runModule (inp1 :: inp2 :: rest) m) = Running
  /\ m_timeStarting (runModule (inp1 :: inp2 :: rest) m) = timeNow inp2
  /\ forall (inp : CycleInput R) (m' : HapticGloveModule R), (updateModule inp m').1 = true.
Proof.
  intros Hm.
  destruct (updateModule_fsm inp1 m) as [_ H1]. rewrite Hm in H1. simpl in H1.
  destruct (updateModule_fsm inp2 (updateModule inp1 m).2) as [_ H2].
  rewrite H1 in H2. simpl in H2.
  pose proof (updateModule_start_time inp2 (updateModule inp1 m).2) as Hstart.
  rewrite H1 in Hstart.
  destruct (runModule_running rest _ H2) as [Hrun Hkeep].
  rewrite !runModule_cons. simpl.
  repeat split; try done.
  - by rewrite Hkeep.
  - intros inp m'. apply updateModule_fsm.
Qed.

(** C7, what the code does about feedback. No cycle reads the right hand:
    [updateModule] leaves the right hand's two feedback buffers and the
    measurement cache of the right hand's collaborator exactly as they
    were, whatever the cycle's input and the scheduler state. *)
Theorem updateModule_never_pulls_right_hand_feedback
    (inp : CycleInput R) (m : HapticGloveModule R) :
  let m' := (updateModule inp m).2 in
  m_icubRightFingerAxisFeedback m' = m_icubRightFingerAxisFeedback m
  /\ m_icubRightFingerJointsFeedback m' = m_icubRightFingerJointsFeedback m
  /\ jointEncoders (controlHelper (m_rightHandFingers m'))
     = jointEncoders (controlHelper (m_rightHandFingers m))
  /\ analogSensors (controlHelper (m_rightHandFingers m'))
     = analogSensors (controlHelper (m_rightHandFingers m)).
Proof.
  unfold updateModule. rewrite getFeedbacks_spec. simpl.
  destruct (m_state m); simpl; try done.
  destruct (compute_references _) as [l r]. simpl.
  match goal with |- context [setFingersAxisReference r ?st] =>
    by destruct (setFingersAxisReference_frame r st) as (d & -> & _) end.
Qed.

(** The reference loop fills the first [k] entries of both buffers with the
    same value. *)
Lemma reference_loop_prefix (x : R) (k : nat) (l r : list R) :
  k <= length l -> k <= length r ->
  foldl (fun '(l, r) i => let l' := <[i := x]> l in (l', <[i := vget l' i]> r))
        (l, r) (seq 0 k)
  = (replicate k x ++ drop k l, replicate k x ++ drop k r).
Proof.
  induction k as [|k IH]; intros Hl Hr.
  - by rewrite !drop_0.
  - rewrite seq_S, foldl_app, IH by lia. simpl.
    destruct (lookup_lt_is_Some_2 l k) as [y Hy]; [lia|].
    destruct (lookup_lt_is_Some_2 r k) as [z Hz]; [lia|].
    rewrite (drop_S _ _ _ Hy), (drop_S _ _ _ Hz).
    assert (Hins : forall (w : R) (t : list R),
               <[k := x]> (replicate k x ++ w :: t) = replicate (S k) x ++ t).
    { intros w t. rewrite insert_app_r_alt by (rewrite length_replicate; lia).
      rewrite length_replicate, Nat.sub_diag. simpl.
      change (x :: t) with ([x] ++ t). rewrite (assoc_L app). f_equal.
      by rewrite <- replicate_S_end. }
    rewrite Hins. f_equal.
    replace (vget (replicate (S k) x ++ drop (S k) l) k) with x; [apply Hins|].
    symmetry. apply vget_lookup.
    rewrite lookup_app_l by (rewrite length_replicate; lia).
    apply lookup_replicate_2. lia.
Qed.

(** What a cycle in [Running] does for the references. With buffers and
    hands sized to a common axis count, one cycle sets every entry of both
    reference buffers to [pi/4 + pi/4 * sin(now - start)], stores the scaled
    reference in each hand and hands it to each hand's actuator. *)
Lemma running_cycle_commands_both_hands (inp : CycleInput R) (m : HapticGloveModule R) :
  let n := getActuatedDoFs (controlHelper (m_leftHandFingers m)) in
  let x := sadd M_PI_4 (smul M_PI_4 (ssin (ssub (timeNow inp) (m_timeStarting m)))) in
  let m' := (updateModule inp m).2 in
  m_state m = Running ->
  length (m_icubLeftFingerAxisReference m) = n ->
  length (m_icubRightFingerAxisReference m) = n ->
  length (m_desiredMotorValue (m_leftHandFingers m)) = n ->
  length (m_fingersScaling (m_leftHandFingers m)) = n ->
  length (m_desiredMotorValue (m_rightHandFingers m)) = n ->
  length (m_fingersScaling (m_rightHandFingers m)) = n ->
  m_icubLeftFingerAxisReference m' = replicate n x
  /\ m_icubRightFingerAxisReference m' = replicate n x
  /\ m_desiredMotorValue (m_leftHandFingers m')
     = zip_with smul (replicate n x) (m_fingersScaling (m_leftHandFingers m))
  /\ actuatorCommand (controlHelper (m_leftHandFingers m'))
     = zip_with smul (replicate n x) (m_fingersScaling (m_leftHandFingers m))
  /\ m_desiredMotorValue (m_rightHandFingers m')
     = zip_with smul (replicate n x) (m_fingersScaling (m_rightHandFingers m))
  /\ actuatorCommand (controlHelper (m_rightHandFingers m'))
     = zip_with smul (replicate n x) (m_fingersScaling (m_rightHandFingers m)).
Proof.
  intros n x m' Hst HL HR HdL HsL HdR HsR. subst m'.
  unfold updateModule. rewrite getFeedbacks_spec. simpl. rewrite Hst.
  unfold compute_references. simpl.
  assert (Hn : getActuatedDoFs
                 (getFeedback (leftReading inp) (m_controlHelper (m_leftHandFingers m))).2
               = n).
  { subst n. unfold controlHelper, getActuatedDoFs.
    by destruct (leftReading inp) as [[axes joints]|]. }
  unfold controlHelper in *. rewrite Hn.
  rewrite reference_loop_prefix by lia.
  rewrite !drop_ge, !app_nil_r by lia. simpl.
  rewrite !setFingersAxisReference_ok by (simpl; rewrite ?length_replicate; lia).
  simpl. done.
Qed.

(** After a cycle, the left hand's cache and the module's left feedback
    buffers hold what [getFeedback] left in the cache. *)
Lemma updateModule_left_feedback (inp : CycleInput R) (m : HapticGloveModule R) :
  let h := (getFeedback (leftReading inp) (m_controlHelper (m_leftHandFingers m))).2 in
  let m' := (updateModule inp m).2 in
  jointEncoders (m_controlHelper (m_leftHandFingers m')) = jointEncoders h
  /\ analogSensors (m_controlHelper (m_leftHandFingers m')) = analogSensors h
  /\ m_icubLeftFingerAxisFeedback m' = jointEncoders h
  /\ m_icubLeftFingerJointsFeedback m' = analogSensors h.
Proof.
  unfold updateModule. rewrite getFeedbacks_spec. simpl.
  destruct (m_state m) eqn:Hst; simpl; try done.
  destruct (compute_references _) as [l r]. simpl.
  match goal with |- context [setFingersAxisReference l ?st] =>
    by destruct (setFingersAxisReference_frame l st) as (d & -> & _) end.
Qed.

(** C9. A cycle whose feedback read fails still returns [true] and advances
    the scheduler as usual; [updateFeedback] itself returns [false] without
    changing the hand; the left hand's measurement cache is the one from
    before the cycle, the two getters return it, and the module's left
    feedback buffers hold it. The whole cycle is the cycle of a successful
    read that delivers the cached values once more. *)
Theorem failed_feedback_read_keeps_stale_values
    (now : R) (m : HapticGloveModule R) :
  let left := m_leftHandFingers m in
  let r := updateModule (mkCycleInput None now) m in
  r.1 = true
  /\ m_state r.2 = fsm_next (m_state m)
  /\ updateFeedback None left = (false, left)
  /\ getFingerAxisMeasuredValues (m_leftHandFingers r.2) = getFingerAxisMeasuredValues left
  /\ getFingerJointsMeasuredValues (m_leftHandFingers r.2) = getFingerJointsMeasuredValues left
  /\ m_icubLeftFingerAxisFeedback r.2 = getFingerAxisMeasuredValues left
  /\ m_icubLeftFingerJointsFeedback r.2 = getFingerJointsMeasuredValues left
  /\ r = updateModule
           (mkCycleInput
              (Some (getFingerAxisMeasuredValues left, getFingerJointsMeasuredValues left))
              now) m.
Proof.
  intros left r.
  destruct (updateModule_fsm (mkCycleInput None now) m) as [Hok Hst].
  destruct (updateModule_left_feedback (mkCycleInput None now) m) as (He & Ha & Hbe & Hba).
  simpl in He, Ha, Hbe, Hba.
  split; [done|]. split; [done|].
  split; [by destruct left|].
  repeat split; try done.
  subst r. unfold updateModule. rewrite !getFeedbacks_spec. simpl.
  subst left. unfold getFingerAxisMeasuredValues, getFingerJointsMeasuredValues,
    controlHelper.
  by destruct (m_controlHelper (m_leftHandFingers m)).
Qed.

End ModuleFacts.

(** ** Evaluation on binary64 data *)

Import Double.

(** [configure] on the calibration table, with a failing first read. *)
Example configure_calibration_table :
  configure calibration_table "left" None = Some fingers0.
Proof. vm_compute. reflexivity. Qed.

(** Outside calibration mode [configure] installs the identity coupling. *)
Example configure_uncoupled_table :
  configure uncoupled_table "left" None = Some fingers_idle.
Proof. vm_compute. reflexivity. Qed.

(** Training on three independent samples of the coupling
    [joints = (m0, m1, m0 + m1)] recovers it. *)
Example train_excited :
  m_A (trainCouplingMatrix fingers_excited).2
  = mkMatrix 2 [[1; 0]; [0; 1]; [1; 1]]%float.
Proof. vm_compute. reflexivity. Qed.

(** With the stand-in inversion, two identical samples fill both matrices
    with NaN, and no failure is reported. *)
Example train_same_rows :
  trainCouplingMatrix fingers_same_rows
  = (None,
     with_controlCoeff (mkMatrix 3 [[nan; nan; nan]; [nan; nan; nan]])
       (with_A (mkMatrix 2 [[nan; nan]; [nan; nan]; [nan; nan]]) fingers_same_rows)).
Proof. vm_compute. reflexivity. Qed.

(** C1, counterexample. Two logs as the claim describes them, one with two
    identical rows, one with a single row for two axes: whatever Eigen's
    inversion returns on the singular matrix, [trainCouplingMatrix] does not
    report a failure, and it overwrites the control coefficient with the
    pseudo-inverse of the coupling matrix it has just assembled. *)
Lemma trainCouplingMatrix_accepts_degenerate_logs :
  (degenerate_log fingers_same_rows /\ degenerate_log fingers_one_row)
  /\ forall E : EigenLib float,
       let r1 := @trainCouplingMatrix float _ E _ fingers_same_rows in
       let r2 := @trainCouplingMatrix float _ E _ fingers_one_row in
       (r1.1 <> Some false /\ m_controlCoeff r1.2 = @pinv float _ E (m_A r1.2))
       /\ (r2.1 <> Some false /\ m_controlCoeff r2.2 = @pinv float _ E (m_A r2.2)).
Proof.
  split.
  - split.
    + left. by exists [0.25; 0.5]%float.
    + right. vm_compute. lia.
  - intros E r1 r2. subst r1 r2.
    split; (split; [discriminate|reflexivity]).
Qed.

Lemma trainCouplingMatrix_least_squares_witness :
  m_A fingers_excited = mempty
  /\ nrows (m_motorsData fingers_excited) = nrows (m_jointsData fingers_excited)
  /\ mrows (m_A (trainCouplingMatrix fingers_excited).2)
     = estimateCoupling_rows (m_motorsData fingers_excited) (m_jointsData fingers_excited) 3
  /\ m_controlCoeff (trainCouplingMatrix fingers_excited).2
     = pinv (m_A (trainCouplingMatrix fingers_excited).2).
Proof.
  split; [reflexivity|]. split; [reflexivity|].
  apply (trainCouplingMatrix_least_squares fingers_excited); reflexivity.
Defined.

Lemma setFingersAxisReference_scales_and_is_idempotent_witness :
  (length (m_desiredMotorValue fingers0) = 2
   /\ length (m_fingersScaling fingers0) = 2
   /\ length [0.5; 3]%float = 2)
  /\ let s' := with_desiredMotorValue [1; 1.5]%float fingers0 in
     setFingersAxisReference [0.5; 3]%float fingers0 = (true, s')
     /\ m_desiredMotorValue s' = [1; 1.5]%float
     /\ setFingersAxisReference [0.5; 3]%float s' = (true, s').
Proof.
  split; [repeat split|].
  exact (setFingersAxisReference_scales_and_is_idempotent [0.5; 3]%float fingers0
           eq_refl eq_refl eq_refl).
Defined.

Lemma setters_reject_wrong_size_witness :
  (length [1]%float <> length (m_desiredMotorValue fingers0)
   /\ length [1; 2]%float <> length (m_desiredJointValue fingers0))
  /\ setFingersAxisReference [1]%float fingers0 = (false, fingers0)
  /\ setFingersJointReference [1; 2]%float fingers0 = (false, fingers0).
Proof.
  split; [split; simpl; lia|].
  apply (setters_reject_wrong_size [1]%float [1; 2]%float fingers0); simpl; lia.
Defined.

Lemma setFingersJointReference_projects_then_delegates_witness :
  (length (m_desiredJointValue fingers_trained) = 3
   /\ wf_matrix (m_controlCoeff fingers_trained)
   /\ nrows (m_controlCoeff fingers_trained) = 2
   /\ ncols (m_controlCoeff fingers_trained) = 3)
  /\ setFingersJointReference [1; 2; 3]%float fingers_trained
     = (true, (setFingersAxisReference [2.5; 3.5]%float fingers_trained).2).
Proof.
  assert (Hwf : wf_matrix (m_controlCoeff fingers_trained)) by repeat constructor.
  split; [repeat split; exact Hwf|].
  exact (setFingersJointReference_projects_then_delegates [1; 2; 3]%float fingers_trained
           eq_refl eq_refl Hwf eq_refl eq_refl).
Defined.

Lemma calibration_operations_are_noops_outside_calibration_witness :
  m_motorJointsCoupled fingers_idle = false
  /\ LogDataToCalibrateRobotMotorsJointsCouplingRandom true (fun _ => 0.75%float) fingers_idle
     = (true, fingers_idle)
  /\ LogDataToCalibrateRobotMotorsJointsCouplingSin 1%float 0 fingers_idle
     = (true, fingers_idle).
Proof.
  split; [reflexivity|].
  apply (calibration_operations_are_noops_outside_calibration
           fingers_idle true (fun _ => 0.75%float) 1%float 0).
  left. reflexivity.
Defined.

Lemma scheduler_reaches_running_and_stays_witness :
  m_state module0 = Configured
  /\ m_state (runModule [cycle1] module0) = InPreparation
  /\ m_state (runModule [cycle1; cycle2] module0) = Running
  /\ m_timeStarting (runModule [cycle1; cycle2] module0) = 2%float
  /\ m_state (runModule [cycle1; cycle2; cycle3] module0) = Running
  /\ m_timeStarting (runModule [cycle1; cycle2; cycle3] module0) = 2%float.
Proof.
  split; [reflexivity|].
  destruct (scheduler_reaches_running_and_stays module0 cycle1 cycle2 [cycle3] eq_refl)
    as (H1 & H2 & H3 & H4 & H5 & _).
  repeat split; assumption.
Defined.

Lemma sample_logs_grow_in_step_witness :
  configure calibration_table "left" None = Some fingers0
  /\ (nrows (m_motorsData fingers0) = 0 /\ nrows (m_jointsData fingers0) = 0)
  /\ nrows (m_motorsData (session short_session fingers0))
     = nrows (m_jointsData (session short_session fingers0)).
Proof.
  assert (Hcfg : configure calibration_table "left" None = Some fingers0)
    by (vm_compute; reflexivity).
  split; [exact Hcfg|].
  destruct (sample_logs_grow_in_step calibration_table "left" None fingers0
              short_session Hcfg) as (H0 & Heq & _).
  split; assumption.
Defined.

(** The session above has recorded two samples in each log, the second one
    stale. *)
Example short_session_logs :
  m_motorsData (session short_session fingers0) = mkMatrix 2 [[1; 0]; [1; 0]]%float
  /\ m_jointsData (session short_session fingers0)
     = mkMatrix 3 [[1; 0; 1]; [1; 0; 1]]%float.
Proof. vm_compute. split; reflexivity. Qed.

(** A cycle in [Running] with a successful read, on data: the left
    feedback buffers hold the fresh measurements and the right ones still
    hold the zeros they were created with, although the right hand's
    collaborator has values cached; both hands have received the same
    command. *)
Example running_cycle_feedback :
  let m' := (updateModule cycle3 module_running).2 in
  m_icubLeftFingerAxisFeedback m' = [0.75; 0.25]%float
  /\ m_icubLeftFingerJointsFeedback m' = [1; 2; 3]%float
  /\ m_icubRightFingerAxisFeedback m' = [0; 0]%float
  /\ m_icubRightFingerJointsFeedback m' = [0; 0; 0]%float
  /\ getFingerAxisMeasuredValues (m_rightHandFingers m') = [0.25; 0.5]%float
  /\ m_icubLeftFingerAxisReference m' = m_icubRightFingerAxisReference m'
  /\ actuatorCommand (controlHelper (m_leftHandFingers m'))
     = actuatorCommand (controlHelper (m_rightHandFingers m')).
Proof. vm_compute. repeat split; reflexivity. Qed.

(** * Further properties *)

(** ** FingersRetargeting::configure *)

Section ConfigureFacts.
Context {R Config : Type}
  `{!Scalar R, !Libm R, !EigenLib R, !IntegratorLib R, !ConfigSource R Config}.

(** [configure] written out: the object it builds from the results of the
    look-ups. *)
Lemma configure_explicit (config : Config) (name : string) (rd : Reading R) :
  configure config name rd
  = (h ← helper_configure config name false;
     samplingTime ← getDoubleFromSearchable config "samplingTime";
     fingersScaling ←
       getYarpVectorFromSearchable config "fingersScaling"
         (vresize (getActuatedDoFs h) []);
     A ← (if check_asBool config "motorsJointsCoupled" false
          then
            if negb (check_asBool config "doCalibration" false)
            then
              A_vector ← getYarpVectorFromSearchable config "CouplingMatrix" [];
              Some (tabulate (getNumberOfJoints h) (getActuatedDoFs h)
                      (fun i j => vget A_vector (i * getActuatedDoFs h + j)))
            else Some mempty
          else Some (MatrixIdentity (getActuatedDoFs h) (getActuatedDoFs h)));
     lim ← getLimits h;
     Some (mkFingers (getFeedback rd h).2 fingersScaling
             (check_asBool config "motorsJointsCoupled" false)
             (check_asBool config "doCalibration" false)
             A mempty
             (vresize (getActuatedDoFs h) []) (vresize (getNumberOfJoints h) [])
             (Some (new_Integrator samplingTime (jointEncoders (getFeedback rd h).2) lim))
             (mkMatrix (getActuatedDoFs h) []) (mkMatrix (getNumberOfJoints h) []) [])).
Proof.
  unfold configure.
  destruct (helper_configure config name false) as [h|]; simpl; [|done].
  destruct (getDoubleFromSearchable config "samplingTime") as [Ts|]; simpl; [|done].
  destruct (getYarpVectorFromSearchable config "fingersScaling" _) as [sc|]; simpl; [|done].
  match goal with |- (?a ≫= _) = _ => destruct a as [A|] end; simpl; [|done].
  unfold updateFeedback, controlHelper, getLimits, getActuatedDoFs, getNumberOfJoints.
  simpl.
  destruct rd as [[axes joints]|]; simpl; by destruct (limits h).
Qed.

(** [configure] fails exactly when the helper cannot be configured, the
    sampling time or the scaling vector cannot be read, the coupling matrix
    cannot be read in the one mode that reads it (coupled, no calibration),
    or the limits are not available. A failed first read of the robot does
    not make it fail. *)
Theorem configure_fails_exactly_when_a_lookup_fails
    (config : Config) (name : string) (rd : Reading R) :
  configure config name rd = None
  <-> (helper_configure config name false = None
       \/ exists h, helper_configure config name false = Some h
            /\ (getDoubleFromSearchable config "samplingTime" = None
                \/ getYarpVectorFromSearchable config "fingersScaling"
                     (vresize (getActuatedDoFs h) []) = None
                \/ (check_asBool config "motorsJointsCoupled" false = true
                    /\ check_asBool config "doCalibration" false = false
                    /\ getYarpVectorFromSearchable config "CouplingMatrix" [] = None)
                \/ getLimits h = None)).
Proof.
  rewrite configure_explicit.
  destruct (helper_configure config name false) as [h|]; simpl;
    [|split; [by left|done]].
  split.
  - intros Hnone. right. exists h. split; [done|].
    destruct (getDoubleFromSearchable config "samplingTime") as [Ts|];
      simpl in Hnone; [|by left].
    destruct (getYarpVectorFromSearchable config "fingersScaling" _) as [sc|];
      simpl in Hnone; [|by right; left].
    right. right.
    destruct (check_asBool config "motorsJointsCoupled" false),
      (check_asBool config "doCalibration" false); simpl in Hnone.
    2: destruct (getYarpVectorFromSearchable config "CouplingMatrix" []) as [Av|];
         simpl in Hnone; [|by left].
    all: destruct (getLimits h) as [lim|]; simpl in Hnone; [done|by right].
  - intros [Hh|(h' & Hh & Hfail)]; [done|]. simplify_eq.
    destruct (getDoubleFromSearchable config "samplingTime") as [Ts|]; simpl; [|done].
    destruct (getYarpVectorFromSearchable config "fingersScaling" _) as [sc|];
      simpl; [|done].
    destruct Hfail as [Hc|[Hc|[(Hcoupled & Hcal & Hc)|Hc]]]; try done.
    + by rewrite Hcoupled, Hcal, Hc.
    + rewrite Hc.
      by destruct (check_asBool config "motorsJointsCoupled" false),
        (check_asBool config "doCalibration" false),
        (getYarpVectorFromSearchable config "CouplingMatrix" []).
Qed.

(** The coupling data [configure] leaves, by mode: the identity without
    coupling, nothing yet when a calibration is to follow, and otherwise
    the joints x axes matrix read row by row from the configured vector.
    The control coefficient is left empty in every mode. *)
Theorem configure_coupling_matrix_by_mode
    (config : Config) (name : string) (rd : Reading R) (s : FingersRetargeting R) :
  configure config name rd = Some s ->
  let n := getActuatedDoFs (m_controlHelper s) in
  let noJoints := getNumberOfJoints (m_controlHelper s) in
  m_controlCoeff s = mempty
  /\ m_motorJointsCoupled s = check_asBool config "motorsJointsCoupled" false
  /\ m_doCalibration s = check_asBool config "doCalibration" false
  /\ (m_motorJointsCoupled s = false -> m_A s = MatrixIdentity n n)
  /\ (m_motorJointsCoupled s = true -> m_doCalibration s = true -> m_A s = mempty)
  /\ (m_motorJointsCoupled s = true -> m_doCalibration s = false ->
      exists A_vector,
        getYarpVectorFromSearchable config "CouplingMatrix" [] = Some A_vector
        /\ nrows (m_A s) = noJoints /\ ncols (m_A s) = n
        /\ forall i j, i < noJoints -> j < n ->
             coeffAt (m_A s) i j = vget A_vector (i * n + j)).
Proof.
  rewrite configure_explicit. intros Hcfg n noJoints.
  destruct (helper_configure config name false) as [h|]; simpl in Hcfg; [|done].
  destruct (getDoubleFromSearchable config "samplingTime") as [Ts|]; simpl in Hcfg; [|done].
  destruct (getYarpVectorFromSearchable config "fingersScaling" _) as [sc|];
    simpl in Hcfg; [|done].
  assert (Hh : getActuatedDoFs (getFeedback rd h).2 = getActuatedDoFs h
               /\ getNumberOfJoints (getFeedback rd h).2 = getNumberOfJoints h).
  { by destruct rd as [[axes joints]|]. }
  destruct Hh as [Ha Hn].
  destruct (check_asBool config "motorsJointsCoupled" false) eqn:Hcoupled,
    (check_asBool config "doCalibration" false) eqn:Hcal; simpl in Hcfg.
  2: destruct (getYarpVectorFromSearchable config "CouplingMatrix" []) as [Av|] eqn:HAv;
       simpl in Hcfg; [|done].
  all: destruct (getLimits h) as [lim|]; simpl in Hcfg; [|done].
  all: simplify_eq; subst n noJoints; simpl; rewrite ?Ha, ?Hn;
    repeat split; try done.
  intros _ _. exists Av. repeat split; try done.
  - apply tabulate_nrows.
  - intros i j Hi Hj. by rewrite coeffAt_tabulate.
Qed.

End ConfigureFacts.

(** ** The reference setters and the calibration operations, continued *)

Section MoreFingersFacts.
Context {R : Type} `{!Scalar R, !Libm R, !EigenLib R, !IntegratorLib R}.

(** [setFingersJointReference] never assigns [m_desiredJointValue]: the
    joint reference it receives is projected and then dropped. Apart from
    the desired motor command the object is as before. *)
Theorem setFingersJointReference_never_stores_the_joint_reference
    (v : list R) (s : FingersRetargeting R) :
  exists d,
    (setFingersJointReference v s).2 = with_desiredMotorValue d s
    /\ m_desiredJointValue (setFingersJointReference v s).2 = m_desiredJointValue s.
Proof.
  unfold setFingersJointReference. case_bool_decide; simpl.
  - exists (m_desiredMotorValue s). by destruct s.
  - match goal with |- context [setFingersAxisReference ?x s] =>
      destruct (setFingersAxisReference_frame x s) as (d & Hd & _) end.
    exists d. by rewrite Hd.
Qed.


(** In a calibration session an operation called on an object without
    integrator returns [false] before anything is recorded or commanded. *)
Theorem log_operations_need_the_integrator
    (s : FingersRetargeting R) (g : bool) (rnd : nat -> R) (t : R) (a : nat) :
  calibrating s = true ->
  m_fingerIntegrator s = None ->
  LogDataToCalibrateRobotMotorsJointsCouplingRandom g rnd s = (false, s)
  /\ LogDataToCalibrateRobotMotorsJointsCouplingSin t a s = (false, s).
Proof.
  intros Hcal Hint. apply andb_true_iff in Hcal as [Hc Hd].
  unfold LogDataToCalibrateRobotMotorsJointsCouplingRandom,
    LogDataToCalibrateRobotMotorsJointsCouplingSin.
  by rewrite Hc, Hd, Hint.
Qed.

(** What the random excitation does to [motorVelocityReference]. *)
Lemma LogRandom_active (g : bool) (rnd : nat -> R) (s : FingersRetargeting R) :
  session_ready s -> calibrating s = true ->
  let n := getActuatedDoFs (m_controlHelper s) in
  let lim := getVelocityLimits (m_controlHelper s) in
  let s' := (LogDataToCalibrateRobotMotorsJointsCouplingRandom g rnd s).2 in
  motorVelocityReference s'
  = motorVelocityReference s
      ++ (if g
          then (fun i => sadd (smul sneg_one (coeffAt lim i 1))
                              (smul (smul (rnd i) stwo) (coeffAt lim i 1)))
                 <$> seq 0 n
          else [])
  /\ getActuatedDoFs (m_controlHelper s') = n
  /\ calibrating s' = true.
Proof.
  intros Hready Hcal n lim s'. subst s'.
  pose proof Hready as (Hrows & Hcm & Hcj & [integ Hint]).
  pose proof Hcal as Hcal'. apply andb_true_iff in Hcal' as [Hc Hd].
  unfold LogDataToCalibrateRobotMotorsJointsCouplingRandom.
  rewrite Hc, Hd, Hint, record_sample_ready by done. simpl.
  match goal with |- context [integrate integ ?x] =>
    destruct (integrate integ x) as [integ' mref] end.
  match goal with |- context [setFingersAxisReference ?x ?st] =>
    destruct (setFingersAxisReference_frame x st) as (d & -> & _) end.
  unfold calibrating. subst n lim.
  destruct g; simpl; rewrite ?app_nil_r, Hc, Hd; repeat split; reflexivity.
Qed.

(** The random excitation appends one velocity per axis to the member
    [motorVelocityReference] on every call and never clears it: after [k]
    calls of a calibration session the vector, which is what the
    integrator is given, is [k] times the axis count longer. *)
Theorem random_excitation_grows_the_velocity_reference
    (k : nat) (rnd : nat -> R) (s : FingersRetargeting R) :
  session_ready s -> calibrating s = true ->
  length (motorVelocityReference (session (replicate k (CallLogRandom true rnd)) s))
  = length (motorVelocityReference s) + k * getActuatedDoFs (m_controlHelper s).
Proof.
  revert s. induction k as [|k IH]; intros s Hready Hcal; simpl; [lia|].
  destruct (LogRandom_active true rnd s Hready Hcal) as (Hmvr & Hn & Hcal').
  unfold session in *. simpl.
  rewrite IH; [|by apply (session_call_ready (CallLogRandom true rnd))|done].
  rewrite Hmvr, Hn, length_app, length_fmap, length_seq. lia.
Qed.

(** The sinusoidal excitation during a calibration session: the stored
    motor command is the scaling applied to a vector that is zero except
    for the sinusoid at [axisNumber], and the sample logs have each grown
    by the cached measurements. *)
Theorem sinusoidal_excitation_drives_one_axis
    (t : R) (a : nat) (s : FingersRetargeting R) :
  session_ready s -> calibrating s = true ->
  length (m_desiredMotorValue s) = getActuatedDoFs (m_controlHelper s) ->
  length (m_fingersScaling s) = getActuatedDoFs (m_controlHelper s) ->
  a < getActuatedDoFs (m_controlHelper s) ->
  let n := getActuatedDoFs (m_controlHelper s) in
  let r := LogDataToCalibrateRobotMotorsJointsCouplingSin t a s in
  r.1 = true
  /\ m_desiredMotorValue r.2
     = zip_with smul
         (<[a := sadd M_PI_4 (smul M_PI_4 (ssin t))]> (replicate n szero))
         (m_fingersScaling s)
  /\ nrows (m_motorsData r.2) = S (nrows (m_motorsData s))
  /\ nrows (m_jointsData r.2) = S (nrows (m_jointsData s)).
Proof.
  intros Hready Hcal Hd Hsc Ha n r. subst r.
  pose proof Hready as (Hrows & Hcm & Hcj & [integ Hint]).
  apply andb_true_iff in Hcal as [Hc Hdo].
  unfold LogDataToCalibrateRobotMotorsJointsCouplingSin.
  rewrite Hc, Hdo, Hint, record_sample_ready by done. simpl.
  assert (Hz : vresize (getActuatedDoFs (m_controlHelper s)) ([] : list R)
               = replicate n szero).
  { unfold vresize. by rewrite take_nil, Nat.sub_0_r. }
  rewrite Hz.
  rewrite setFingersAxisReference_ok
    by (simpl; rewrite ?length_insert, ?length_replicate; subst n; congruence).
  simpl. unfold nrows. simpl. rewrite !length_app. simpl.
  repeat split; lia.
Qed.

End MoreFingersFacts.

(** ** The module, continued *)

Section MoreModuleFacts.
Context {R : Type} `{!Scalar R, !Libm R, !EigenLib R, !IntegratorLib R}.

Lemma getFeedback_keeps_counts (rd : Reading R) (h : RobotControlHelper R) :
  getActuatedDoFs (getFeedback rd h).2 = getActuatedDoFs h
  /\ getNumberOfJoints (getFeedback rd h).2 = getNumberOfJoints h
  /\ actuatorCommand (getFeedback rd h).2 = actuatorCommand h.
Proof. by destruct rd as [[axes joints]|]. Qed.

(** The stored command after [setFingersAxisReference] depends on the
    object only through the previous command and the scaling. *)
Lemma setFingersAxisReference_desired (v : list R) (s s' : FingersRetargeting R) :
  m_desiredMotorValue s = m_desiredMotorValue s' ->
  m_fingersScaling s = m_fingersScaling s' ->
  m_desiredMotorValue (setFingersAxisReference v s).2
  = m_desiredMotorValue (setFingersAxisReference v s').2.
Proof.
  intros Hd Hsc. unfold setFingersAxisReference. rewrite Hd, Hsc.
  by case_bool_decide.
Qed.

(** Before the scheduler is in [Running] a cycle commands nothing: the
    right hand is untouched, the left hand keeps its stored command and
    its actuator keeps the last command, and the reference buffers and
    [m_timeNow] stay as they are. Only the left feedback is refreshed. *)
Theorem updateModule_commands_nothing_before_running
    (inp : CycleInput R) (m : HapticGloveModule R) :
  m_state m <> Running ->
  let m' := (updateModule inp m).2 in
  m_rightHandFingers m' = m_rightHandFingers m
  /\ m_desiredMotorValue (m_leftHandFingers m') = m_desiredMotorValue (m_leftHandFingers m)
  /\ actuatorCommand (controlHelper (m_leftHandFingers m'))
     = actuatorCommand (controlHelper (m_leftHandFingers m))
  /\ m_icubLeftFingerAxisReference m' = m_icubLeftFingerAxisReference m
  /\ m_icubRightFingerAxisReference m' = m_icubRightFingerAxisReference m
  /\ m_timeNow m' = m_timeNow m.
Proof.
  intros Hst. unfold updateModule. rewrite getFeedbacks_spec. simpl.
  destruct (getFeedback_keeps_counts (leftReading inp)
              (m_controlHelper (m_leftHandFingers m))) as (_ & _ & Hcmd).
  destruct (m_state m) eqn:Hstate; simpl; try done.
Qed.

(** The reference of a cycle does not depend on the feedback: two cycles
    at the same time stamp whose robot reads differ, or fail, leave the
    same scheduler state, the same reference buffers, the same stored
    commands and actuator commands in both hands. *)
Theorem references_ignore_feedback
    (rd1 rd2 : Reading R) (now : R) (m : HapticGloveModule R) :
  let m1 := (updateModule (mkCycleInput rd1 now) m).2 in
  let m2 := (updateModule (mkCycleInput rd2 now) m).2 in
  m_state m1 = m_state m2
  /\ m_timeStarting m1 = m_timeStarting m2
  /\ m_icubLeftFingerAxisReference m1 = m_icubLeftFingerAxisReference m2
  /\ m_icubRightFingerAxisReference m1 = m_icubRightFingerAxisReference m2
  /\ m_desiredMotorValue (m_leftHandFingers m1) = m_desiredMotorValue (m_leftHandFingers m2)
  /\ actuatorCommand (controlHelper (m_leftHandFingers m1))
     = actuatorCommand (controlHelper (m_leftHandFingers m2))
  /\ m_rightHandFingers m1 = m_rightHandFingers m2.
Proof.
  unfold updateModule. rewrite !getFeedbacks_spec. simpl.
  destruct (getFeedback_keeps_counts rd1 (m_controlHelper (m_leftHandFingers m)))
    as (Hn1 & _ & Hc1).
  destruct (getFeedback_keeps_counts rd2 (m_controlHelper (m_leftHandFingers m)))
    as (Hn2 & _ & Hc2).
  destruct (m_state m) eqn:Hstate; simpl.
  1, 2: repeat split; congruence.
  unfold compute_references, controlHelper. simpl. rewrite Hn1, Hn2.
  match goal with |- context [foldl ?f ?a ?l] => destruct (foldl f a l) as [l0 r0] end.
  simpl. repeat split; by apply setFingersAxisReference_desired.
Qed.

(** The reference loop runs over the left hand's axis count for both
    buffers: with buffers at least that long, their first entries are set
    to the sinusoid and every later entry keeps its previous value. A
    right hand with more axes than the left one is therefore commanded
    stale values on its extra axes. *)
Theorem reference_loop_is_bounded_by_the_left_axis_count
    (inp : CycleInput R) (m : HapticGloveModule R) :
  let n := getActuatedDoFs (controlHelper (m_leftHandFingers m)) in
  let x := sadd M_PI_4 (smul M_PI_4 (ssin (ssub (timeNow inp) (m_timeStarting m)))) in
  let m' := (updateModule inp m).2 in
  m_state m = Running ->
  n <= length (m_icubLeftFingerAxisReference m) ->
  n <= length (m_icubRightFingerAxisReference m) ->
  m_icubLeftFingerAxisReference m'
  = replicate n x ++ drop n (m_icubLeftFingerAxisReference m)
  /\ m_icubRightFingerAxisReference m'
     = replicate n x ++ drop n (m_icubRightFingerAxisReference m).
Proof.
  intros n x m' Hst HL HR. subst m'.
  unfold updateModule. rewrite getFeedbacks_spec. simpl. rewrite Hst.
  unfold compute_references. simpl.
  destruct (getFeedback_keeps_counts (leftReading inp)
              (m_controlHelper (m_leftHandFingers m))) as (Hn & _ & _).
  unfold controlHelper in *. rewrite Hn.
  by rewrite reference_loop_prefix.
Qed.

End MoreModuleFacts.

(** ** HapticGloveModule::configure *)

Section ModuleSetupFacts.
Context {R RF Config : Type}
  `{!Scalar R, !Libm R, !EigenLib R, !IntegratorLib R,
    !ConfigSource R Config, !ResourceFinderLib R RF Config}.

(** A configured module is in [Configured] with both times zero; each hand
    is the one [FingersRetargeting::configure] builds from its own group
    with the GENERAL group appended; every buffer has the size of the
    hand it belongs to, so that the size check of
    [setFingersAxisReference] accepts each hand's reference buffer. *)
Theorem module_configure_outcome
    (rf : RF) (rdLeft rdRight : Reading R)
    (st : ModuleSettings R) (m : HapticGloveModule R) :
  ModuleSetup.configure rf rdLeft rdRight = Some (st, m) ->
  let general := findGroup rf "GENERAL" in
  let noLeftAxis := getActuatedDoFs (controlHelper (m_leftHandFingers m)) in
  let noRightAxis := getActuatedDoFs (controlHelper (m_rightHandFingers m)) in
  let noLeftJoints := getNumberOfJoints (controlHelper (m_leftHandFingers m)) in
  let noRightJoints := getNumberOfJoints (controlHelper (m_rightHandFingers m)) in
  (m_state m = Configured /\ m_timeStarting m = szero /\ m_timeNow m = szero)
  /\ (getStringFromSearchable rf "name" = Some (module_name st)
      /\ ModuleSetup.getPeriod st = check_asDouble general "samplingTime" literal_0_1)
  /\ (configure (bottle_append (findGroup rf "LEFT_FINGERS_RETARGETING") general)
        (module_name st) rdLeft = Some (m_leftHandFingers m)
      /\ configure (bottle_append (findGroup rf "RIGHT_FINGERS_RETARGETING") general)
           (module_name st) rdRight = Some (m_rightHandFingers m))
  /\ (length (m_icubLeftFingerAxisReference m) = noLeftAxis
      /\ length (m_icubLeftFingerAxisFeedback m) = noLeftAxis
      /\ length (m_icubLeftFingerJointsReference m) = noLeftJoints
      /\ length (m_icubLeftFingerJointsFeedback m) = noLeftJoints
      /\ length (m_icubRightFingerAxisReference m) = noRightAxis
      /\ length (m_icubRightFingerAxisFeedback m) = noRightAxis
      /\ length (m_icubRightFingerJointsReference m) = noRightJoints
      /\ length (m_icubRightFingerJointsFeedback m) = noRightJoints)
  /\ ((setFingersAxisReference (m_icubLeftFingerAxisReference m) (m_leftHandFingers m)).1
      = true
      /\ (setFingersAxisReference (m_icubRightFingerAxisReference m)
            (m_rightHandFingers m)).1 = true).
Proof.
  unfold ModuleSetup.configure. intros Hcfg.
  destruct (rf_isNull rf); [done|].
  destruct (getStringFromSearchable rf "name") as [name|]; simpl in Hcfg; [|done].
  destruct (configure (bottle_append (findGroup rf "LEFT_FINGERS_RETARGETING") _) name rdLeft)
    as [left|] eqn:Hleft; simpl in Hcfg; [|done].
  destruct (configure (bottle_append (findGroup rf "RIGHT_FINGERS_RETARGETING") _) name rdRight)
    as [right|] eqn:Hright; simpl in Hcfg; [|done].
  destruct (configure_sizes _ _ _ _ Hleft) as [HdL _].
  destruct (configure_sizes _ _ _ _ Hright) as [HdR _].
  assert (Hm : m = mkModule Configured szero szero left right
                 (vresize (getActuatedDoFs (controlHelper left)) [])
                 (vresize (getActuatedDoFs (controlHelper left)) [])
                 (vresize (getNumberOfJoints (controlHelper left)) [])
                 (vresize (getNumberOfJoints (controlHelper left)) [])
                 (vresize (getActuatedDoFs (controlHelper right)) [])
                 (vresize (getActuatedDoFs (controlHelper right)) [])
                 (vresize (getNumberOfJoints (controlHelper right)) [])
                 (vresize (getNumberOfJoints (controlHelper right)) [])
             /\ st = mkSettings
                       (check_asDouble (findGroup rf "GENERAL") "samplingTime" literal_0_1)
                       (check_asBool (findGroup rf "GENERAL") "enableMoveRobot" true)
                       (check_asBool (findGroup rf "GENERAL") "enableLogger" false)
                       name).
  { destruct (check_asBool (findGroup rf "GENERAL") "enableLogger" false);
      simpl in Hcfg; by simplify_eq. }
  destruct Hm as [-> ->]. simpl.
  rewrite !length_vresize_nil.
  repeat split; try done.
  - unfold setFingersAxisReference. rewrite bool_decide_false; [done|].
    intros Hne. apply Hne. by rewrite length_vresize_nil.
  - unfold setFingersAxisReference. rewrite bool_decide_false; [done|].
    intros Hne. apply Hne. by rewrite length_vresize_nil.
Qed.

(** The module's [configure] fails exactly when the resource finder is
    empty, the name is missing, or one of the two hands cannot be
    configured. Enabling the logger never makes it fail. *)
Theorem module_configure_fails_exactly_when
    (rf : RF) (rdLeft rdRight : Reading R) :
  ModuleSetup.configure rf rdLeft rdRight = None
  <-> (rf_isNull rf = true
       \/ getStringFromSearchable rf "name" = None
       \/ exists name, getStringFromSearchable rf "name" = Some name
            /\ (configure (bottle_append (findGroup rf "LEFT_FINGERS_RETARGETING")
                             (findGroup rf "GENERAL")) name rdLeft = None
                \/ configure (bottle_append (findGroup rf "RIGHT_FINGERS_RETARGETING")
                                (findGroup rf "GENERAL")) name rdRight = None)).
Proof.
  unfold ModuleSetup.configure.
  destruct (rf_isNull rf); [split; [by left|done]|].
  destruct (getStringFromSearchable rf "name") as [name|]; simpl;
    [|split; [by right; left|done]].
  destruct (configure (bottle_append (findGroup rf "LEFT_FINGERS_RETARGETING") _) name rdLeft)
    as [left|] eqn:Hleft; simpl.
  2: { split; [intros _; right; right; exists name; by auto|done]. }
  destruct (configure (bottle_append (findGroup rf "RIGHT_FINGERS_RETARGETING") _) name rdRight)
    as [right|] eqn:Hright; simpl.
  2: { split; [intros _; right; right; exists name; by auto|done]. }
  split.
  - by destruct (check_asBool (findGroup rf "GENERAL") "enableLogger" false).
  - intros [Hn|[Hn|(name' & Hn & [Hc|Hc])]]; by simplify_eq.
Qed.

End ModuleSetupFacts.

(** ** GloveControlHelper *)

Section GloveFacts.
Context {R F : Type} `{!Scalar R, !CMath R}.

#[local] Abbreviation GCH := (GloveControlHelper R F).

Lemma fmap_seq_vget {B : Type} (f : R -> B) (v : list R) :
  (fun i => f (vget v i)) <$> seq 0 (length v) = f <$> v.
Proof.
  induction v as [|x v IH]; simpl; [done|].
  f_equal. by rewrite <- fmap_S_seq, <- list_fmap_compose.
Qed.

Lemma fmap_all_equal {A B : Type} (f : A -> B) (b : B) (l : list A) :
  Forall (fun x => f x = b) l -> f <$> l = replicate (length l) b.
Proof. induction 1 as [|x l Hx _ IH]; simpl; [done|]. by f_equal. Qed.

(** Both reference setters of the glove compare the size first: a wrong
    size returns [false], stores nothing and sends nothing. *)
Theorem glove_setters_reject_wrong_size
    (vf vb : list R) (okf okb : bool) (g : GCH) :
  length vf <> m_forceFbDof g ->
  length vb <> m_buzzDof g ->
  GloveHelper.setFingersForceReference vf okf g = (false, g)
  /\ GloveHelper.setBuzzMotorsReference vb okb g = (false, g).
Proof.
  intros Hf Hb.
  unfold GloveHelper.setFingersForceReference, GloveHelper.setBuzzMotorsReference.
  by rewrite !bool_decide_true.
Qed.

(** What the two setters store and send when the size is right. *)
Lemma setFingersForceReference_accepted
    (v : list R) (sendOk : bool) (g : GCH) :
  length v = m_forceFbDof g ->
  length (m_desiredForceValues g) = m_forceFbDof g ->
  GloveHelper.setFingersForceReference v sendOk g
  = (sendOk,
     GloveHelper.SendHaptics (SG_FFBCmd (GloveHelper.force_level <$> v))
       (GloveHelper.with_desiredForceValues (GloveHelper.force_level <$> v) g)).
Proof.
  intros Hv Hd. unfold GloveHelper.setFingersForceReference.
  rewrite bool_decide_false by (intros Hne; by apply Hne).
  rewrite <- Hd, foldl_insert_all, Hd, <- Hv, fmap_seq_vget.
  by destruct sendOk.
Qed.

Lemma setBuzzMotorsReference_accepted
    (v : list R) (sendOk : bool) (g : GCH) :
  length v = m_buzzDof g ->
  length (m_desiredBuzzValues g) = m_buzzDof g ->
  GloveHelper.setBuzzMotorsReference v sendOk g
  = (sendOk,
     GloveHelper.SendHaptics (SG_BuzzCmd (GloveHelper.buzz_level <$> v))
       (GloveHelper.with_desiredBuzzValues (GloveHelper.buzz_level <$> v) g)).
Proof.
  intros Hv Hd. unfold GloveHelper.setBuzzMotorsReference.
  rewrite bool_decide_false by (intros Hne; by apply Hne).
  rewrite <- Hd, foldl_insert_all, Hd, <- Hv, fmap_seq_vget.
  by destruct sendOk.
Qed.

(** With the right size, [setFingersForceReference] stores one level per
    finger, sends exactly one force-feedback command carrying the stored
    levels, and returns what [SendHaptics] returned: the levels are stored
    and sent also when the call reports failure. *)
Theorem setFingersForceReference_stores_then_sends
    (v : list R) (sendOk : bool) (g : GCH) :
  length v = m_forceFbDof g ->
  length (m_desiredForceValues g) = m_forceFbDof g ->
  let r := GloveHelper.setFingersForceReference v sendOk g in
  r.1 = sendOk
  /\ m_desiredForceValues r.2 = GloveHelper.force_level <$> v
  /\ glove_sent r.2 = glove_sent g ++ [SG_FFBCmd (GloveHelper.force_level <$> v)]
  /\ m_desiredBuzzValues r.2 = m_desiredBuzzValues g.
Proof.
  intros Hv Hd r. subst r. by rewrite setFingersForceReference_accepted.
Qed.

(** The same for the buzz motors. *)
Theorem setBuzzMotorsReference_stores_then_sends
    (v : list R) (sendOk : bool) (g : GCH) :
  length v = m_buzzDof g ->
  length (m_desiredBuzzValues g) = m_buzzDof g ->
  let r := GloveHelper.setBuzzMotorsReference v sendOk g in
  r.1 = sendOk
  /\ m_desiredBuzzValues r.2 = GloveHelper.buzz_level <$> v
  /\ glove_sent r.2 = glove_sent g ++ [SG_BuzzCmd (GloveHelper.buzz_level <$> v)]
  /\ m_desiredForceValues r.2 = m_desiredForceValues g.
Proof.
  intros Hv Hd r. subst r. by rewrite setBuzzMotorsReference_accepted.
Qed.

(** A vector without a positive entry (zeros, negative values, NaN: every
    [v(i) > 0.0] is false) switches all fingers off: the stored and sent
    levels are all zero, for force and for buzz. *)
Theorem non_positive_references_switch_off
    (v : list R) (sendOk : bool) (g : GCH) :
  Forall (fun x => sltb szero x = false) v ->
  length v = m_forceFbDof g ->
  length (m_desiredForceValues g) = m_forceFbDof g ->
  length v = m_buzzDof g ->
  length (m_desiredBuzzValues g) = m_buzzDof g ->
  m_desiredForceValues (GloveHelper.setFingersForceReference v sendOk g).2
  = replicate (length v) 0%Z
  /\ m_desiredBuzzValues (GloveHelper.setBuzzMotorsReference v sendOk g).2
     = replicate (length v) 0%Z.
Proof.
  intros Hneg Hf Hdf Hb Hdb.
  rewrite setFingersForceReference_accepted, setBuzzMotorsReference_accepted by done.
  simpl. split; apply fmap_all_equal; eapply Forall_impl; try exact Hneg.
  - intros x Hx. unfold GloveHelper.force_level. by rewrite Hx.
  - intros x Hx. unfold GloveHelper.buzz_level. by rewrite Hx.
Qed.

End GloveFacts.

(** ** The pose loops of the glove helper *)

Section LinkLoop.
Context {R : Type} `{!Scalar R}.
Context {A B : Type}.
Variables (dA : A) (dB : B).
Variable w : nat -> A -> B -> Matrix R -> Matrix R.
Variable rowOf : A * B -> list R.
Variable W : nat.
Variable m0 : Matrix R.

(** What the loop body is required to do: overwrite a complete row. *)
Hypothesis w_row :
  forall (c : nat) (a : A) (b : B) (M : Matrix R) (row : list R),
    mrows M !! c = Some row -> length row = W ->
    mrows (w c a b M) = <[c := rowOf (a, b)]> (mrows M) /\ ncols (w c a b M) = ncols M.
Hypothesis m0_rows : Forall (fun row => length row = W) (mrows m0).

Lemma link_step (L : list (A * B)) (acc : Matrix R) (a : A) (b : B) :
  mrows acc = (rowOf <$> L) ++ drop (length L) (mrows m0) ->
  ncols acc = ncols m0 ->
  length L < nrows m0 ->
  mrows (w (length L) a b acc)
  = (rowOf <$> (L ++ [(a, b)])) ++ drop (length (L ++ [(a, b)])) (mrows m0)
  /\ ncols (w (length L) a b acc) = ncols m0.
Proof.
  intros Hrows Hcols Hlt.
  destruct (lookup_lt_is_Some_2 (mrows m0) (length L) Hlt) as [row Hrow].
  assert (Hacc : mrows acc !! length L = Some row).
  { rewrite Hrows, lookup_app_r by (rewrite length_fmap; lia).
    rewrite length_fmap, Nat.sub_diag, lookup_drop, Nat.add_0_r. done. }
  destruct (w_row (length L) a b acc row Hacc) as [Hw Hc].
  { by apply (Forall_lookup_1 _ _ _ _ m0_rows Hrow). }
  split; [|congruence].
  rewrite Hw, Hrows.
  rewrite insert_app_r_alt by (rewrite length_fmap; lia).
  rewrite length_fmap, Nat.sub_diag, (drop_S _ _ _ Hrow). simpl.
  rewrite fmap_app, length_app, <- (assoc_L app). simpl.
  by rewrite Nat.add_1_r.
Qed.

Lemma inner_loop (las : list (list A)) (lbs : list (list B)) (i : nat)
    (la : list A) (lb : list B) (n : nat) (L : list (A * B)) (acc : Matrix R) :
  las !! i = Some la -> lbs !! i = Some lb -> length la = length lb ->
  n <= length la ->
  mrows acc = (rowOf <$> L) ++ drop (length L) (mrows m0) ->
  ncols acc = ncols m0 ->
  length L + n <= nrows m0 ->
  exists acc',
    foldl (fun '(count, M) j =>
             (S count, w count (GloveHelper.at2 dA las i j) (GloveHelper.at2 dB lbs i j) M))
          (length L, acc) (seq 0 n)
    = (length (L ++ zip (take n la) (take n lb)), acc')
    /\ mrows acc'
       = (rowOf <$> (L ++ zip (take n la) (take n lb)))
           ++ drop (length (L ++ zip (take n la) (take n lb))) (mrows m0)
    /\ ncols acc' = ncols m0.
Proof.
  intros Hla Hlb Hlen. induction n as [|n IH]; intros Hn Hrows Hcols Hbound.
  - exists acc. simpl. by rewrite !app_nil_r.
  - destruct IH as (acc1 & Hfold & Hrows1 & Hcols1); [lia|done|done|lia|].
    destruct (lookup_lt_is_Some_2 la n) as [a Ha]; [lia|].
    destruct (lookup_lt_is_Some_2 lb n) as [b Hb]; [lia|].
    assert (Hzip : zip (take (S n) la) (take (S n) lb)
                   = zip (take n la) (take n lb) ++ [(a, b)]).
    { rewrite (take_S_r _ _ _ Ha), (take_S_r _ _ _ Hb).
      rewrite zip_with_app by (rewrite !length_take; lia). done. }
    assert (Hk : length (zip (take n la) (take n lb)) = n).
    { rewrite length_zip_with, !length_take. lia. }
    rewrite seq_S, foldl_app, Hfold. simpl.
    assert (Ha2 : GloveHelper.at2 dA las i n = a).
    { unfold GloveHelper.at2. by rewrite Hla; simpl; rewrite Ha. }
    assert (Hb2 : GloveHelper.at2 dB lbs i n = b).
    { unfold GloveHelper.at2. by rewrite Hlb; simpl; rewrite Hb. }
    rewrite Ha2, Hb2, Hzip, (assoc_L app).
    destruct (link_step (L ++ zip (take n la) (take n lb)) acc1 a b Hrows1 Hcols1)
      as [Hr Hc].
    { rewrite length_app, Hk. lia. }
    eexists. split; [|split; [exact Hr|exact Hc]].
    f_equal. rewrite !length_app. simpl. lia.
Qed.

Lemma zip_links_prefix (las : list (list A)) (lbs : list (list B)) (k : nat) :
  GloveHelper.same_shape las lbs ->
  length (concat (zip_with zip (take k las) (take k lbs)))
  <= length (concat (zip_with zip las lbs)).
Proof.
  intros Hshape. pose proof (Forall2_length _ _ _ Hshape) as Hlen.
  rewrite <- (take_drop k las) at 2. rewrite <- (take_drop k lbs) at 2.
  rewrite zip_with_app by (rewrite !length_take; lia).
  rewrite concat_app, length_app. lia.
Qed.

(** The nested loops store the links, in order, in the leading rows; the
    rows behind them are left as they were. *)
Lemma for_each_link_layout (las : list (list A)) (lbs : list (list B)) :
  GloveHelper.same_shape las lbs ->
  length (concat (zip_with zip las lbs)) <= nrows m0 ->
  let m' :=
    GloveHelper.for_each_link las
      (fun count i j => w count (GloveHelper.at2 dA las i j) (GloveHelper.at2 dB lbs i j))
      m0 in
  mrows m'
  = (rowOf <$> concat (zip_with zip las lbs))
      ++ drop (length (concat (zip_with zip las lbs))) (mrows m0)
  /\ ncols m' = ncols m0.
Proof.
  intros Hshape Hbound. pose proof (Forall2_length _ _ _ Hshape) as Hlen.
  unfold GloveHelper.for_each_link.
  assert (Hloop : forall k, k <= length las ->
            exists acc,
              foldl (fun '(count, M) i =>
                       foldl (fun '(count, M) j =>
                                (S count,
                                 w count (GloveHelper.at2 dA las i j)
                                   (GloveHelper.at2 dB lbs i j) M))
                             (count, M) (seq 0 (length (default [] (las !! i)))))
                    (0, m0) (seq 0 k)
              = (length (concat (zip_with zip (take k las) (take k lbs))), acc)
              /\ mrows acc
                 = (rowOf <$> concat (zip_with zip (take k las) (take k lbs)))
                     ++ drop (length (concat (zip_with zip (take k las) (take k lbs))))
                          (mrows m0)
              /\ ncols acc = ncols m0).
  { induction k as [|k IH]; intros Hk.
    - exists m0. simpl. by rewrite drop_0.
    - destruct IH as (acc & Hfold & Hrows & Hcols); [lia|].
      destruct (lookup_lt_is_Some_2 las k) as [la Hla]; [lia|].
      destruct (lookup_lt_is_Some_2 lbs k) as [lb Hlb]; [lia|].
      pose proof (Forall2_lookup_lr _ _ _ _ _ _ Hshape Hla Hlb) as Hsame.
      simpl in Hsame.
      assert (Hcat : concat (zip_with zip (take (S k) las) (take (S k) lbs))
                     = concat (zip_with zip (take k las) (take k lbs)) ++ zip la lb).
      { rewrite (take_S_r _ _ _ Hla), (take_S_r _ _ _ Hlb).
        rewrite zip_with_app by (rewrite !length_take; lia).
        rewrite concat_app. simpl. by rewrite app_nil_r. }
      pose proof (zip_links_prefix las lbs (S k) Hshape) as Hpre.
      rewrite Hcat, length_app, length_zip_with in Hpre.
      rewrite seq_S, foldl_app, Hfold. simpl. rewrite Hla. simpl.
      destruct (inner_loop las lbs k la lb (length la)
                  (concat (zip_with zip (take k las) (take k lbs))) acc
                  Hla Hlb Hsame) as (acc' & Hin & Hrows' & Hcols');
        [lia|done|done|lia|].
      assert (Hta : take (length la) la = la) by (apply take_ge; lia).
      assert (Htb : take (length la) lb = lb) by (apply take_ge; lia).
      rewrite Hta, Htb in Hin, Hrows'.
      exists acc'. rewrite Hcat. by rewrite Hin. }
  destruct (Hloop (length las)) as (acc & Hfold & Hrows & Hcols); [lia|].
  assert (Hta : take (length las) las = las) by (apply take_ge; lia).
  assert (Htb : take (length las) lbs = lbs) by (apply take_ge; lia).
  rewrite Hta, Htb in Hfold, Hrows.
  by rewrite Hfold.
Qed.

End LinkLoop.

Section GlovePoseFacts.
Context {R F : Type} `{!Scalar R, !CMath R}.

#[local] Abbreviation GCH := (GloveControlHelper R F).

Lemma alter_as_insert {A : Type} (f : A -> A) (l : list A) (i : nat) (x : A) :
  l !! i = Some x -> alter f i l = <[i := f x]> l.
Proof.
  revert i. induction l as [|y l IH]; intros [|i] Hx; simplify_eq/=; [done|].
  f_equal. by apply IH.
Qed.

(** One assignment into a row that is known. *)
Lemma set_coeff_chain (M : Matrix R) (c j : nat) (v : R) (rows0 : list (list R))
    (r : list R) :
  mrows M = <[c := r]> rows0 -> c < length rows0 ->
  mrows (GloveHelper.set_coeff M c j v) = <[c := <[j := v]> r]> rows0
  /\ ncols (GloveHelper.set_coeff M c j v) = ncols M.
Proof.
  intros HM Hc. unfold GloveHelper.set_coeff. simpl. split; [|done].
  rewrite (alter_as_insert _ _ c r) by (rewrite HM; by apply list_lookup_insert_eq).
  by rewrite HM, list_insert_insert_eq.
Qed.

Lemma store_link_row (c : nat) (p : Vect3D R) (q : Quat R) (M : Matrix R)
    (row : list R) :
  mrows M !! c = Some row -> length row = 7 ->
  mrows (GloveHelper.store_link c p q M) = <[c := GloveHelper.link_row (p, q)]> (mrows M)
  /\ ncols (GloveHelper.store_link c p q M) = ncols M.
Proof.
  intros Hrow Hlen. pose proof (lookup_lt_Some _ _ _ Hrow) as Hc.
  assert (H0 : mrows M = <[c := row]> (mrows M)) by (by rewrite list_insert_id).
  unfold GloveHelper.store_link. cbv zeta.
  destruct (set_coeff_chain M c 0 (vx p) _ _ H0 Hc) as [H1 C1].
  destruct (set_coeff_chain _ c 1 (vy p) _ _ H1 Hc) as [H2 C2].
  destruct (set_coeff_chain _ c 2 (vz p) _ _ H2 Hc) as [H3 C3].
  destruct (set_coeff_chain _ c 3 (qx q) _ _ H3 Hc) as [H4 C4].
  destruct (set_coeff_chain _ c 4 (qy q) _ _ H4 Hc) as [H5 C5].
  destruct (set_coeff_chain _ c 5 (qz q) _ _ H5 Hc) as [H6 C6].
  destruct (set_coeff_chain _ c 6 (qw q) _ _ H6 Hc) as [H7 C7].
  split; [|congruence]. rewrite H7.
  do 7 (destruct row as [|? row]; [done|]). by destruct row.
Qed.

Lemma store_angles_row (c : nat) (a : Vect3D R) (M : Matrix R) (row : list R) :
  mrows M !! c = Some row -> length row = 3 ->
  mrows (GloveHelper.store_angles c a M) = <[c := GloveHelper.angles_row a]> (mrows M)
  /\ ncols (GloveHelper.store_angles c a M) = ncols M.
Proof.
  intros Hrow Hlen. pose proof (lookup_lt_Some _ _ _ Hrow) as Hc.
  assert (H0 : mrows M = <[c := row]> (mrows M)) by (by rewrite list_insert_id).
  unfold GloveHelper.store_angles. cbv zeta.
  destruct (set_coeff_chain M c 0 (vx a) _ _ H0 Hc) as [H1 C1].
  destruct (set_coeff_chain _ c 1 (vy a) _ _ H1 Hc) as [H2 C2].
  destruct (set_coeff_chain _ c 2 (vz a) _ _ H2 Hc) as [H3 C3].
  split; [|congruence]. rewrite H3.
  do 3 (destruct row as [|? row]; [done|]). by destruct row.
Qed.

Lemma snd_concat_zip {A B : Type} (las : list (list A)) (lbs : list (list B)) :
  GloveHelper.same_shape las lbs ->
  snd <$> concat (zip_with zip las lbs) = concat lbs
  /\ length (concat (zip_with zip las lbs)) = length (concat lbs).
Proof.
  induction 1 as [|la lb las lbs Hlen _ [IH1 IH2]]; simpl; [done|].
  rewrite fmap_app, !length_app, IH1, IH2, snd_zip, length_zip_with by lia.
  split; [done|lia].
Qed.

(** [getGlovePose] with an answer from the glove: the answer's links are
    stored in order, one per row (position, then rotation), in the leading
    rows of [m_glovePose]; the rows behind them keep the values of earlier
    reads; the matrix handed back is the stored one and the call returns
    [true]. *)
Theorem getGlovePose_stores_links_in_order (pose : SG_GlovePose R) (g : GCH) :
  wf_matrix (m_glovePose g) -> ncols (m_glovePose g) = 7 ->
  GloveHelper.same_shape (gp_jointPositions pose) (gp_jointRotations pose) ->
  let links := concat (zip_with zip (gp_jointPositions pose) (gp_jointRotations pose)) in
  length links <= nrows (m_glovePose g) ->
  let r := GloveHelper.getGlovePose (Some pose) g in
  r.1.1 = true
  /\ m_glovePose r.2 = r.1.2
  /\ ncols r.1.2 = 7
  /\ mrows r.1.2
     = (GloveHelper.link_row <$> links) ++ drop (length links) (mrows (m_glovePose g)).
Proof.
  intros Hwf Hc Hshape links Hbound r. subst r. simpl.
  destruct (for_each_link_layout GloveHelper.zero3 GloveHelper.zero4
              GloveHelper.store_link GloveHelper.link_row 7 (m_glovePose g)
              store_link_row) with (las := gp_jointPositions pose)
              (lbs := gp_jointRotations pose) as [Hrows Hcols]; try done.
  { unfold wf_matrix in Hwf. by rewrite Hc in Hwf. }
  repeat split; [congruence|exact Hrows].
Qed.

(** The same for [getHandPose] and [m_handPose]. *)
Theorem getHandPose_stores_links_in_order (pose : HandPose R) (g : GCH) :
  wf_matrix (m_handPose g) -> ncols (m_handPose g) = 7 ->
  GloveHelper.same_shape (hp_jointPositions pose) (hp_jointRotations pose) ->
  let links := concat (zip_with zip (hp_jointPositions pose) (hp_jointRotations pose)) in
  length links <= nrows (m_handPose g) ->
  let r := GloveHelper.getHandPose (Some pose) g in
  r.1.1 = true
  /\ m_handPose r.2 = r.1.2
  /\ ncols r.1.2 = 7
  /\ mrows r.1.2
     = (GloveHelper.link_row <$> links) ++ drop (length links) (mrows (m_handPose g)).
Proof.
  intros Hwf Hc Hshape links Hbound r. subst r. simpl.
  destruct (for_each_link_layout GloveHelper.zero3 GloveHelper.zero4
              GloveHelper.store_link GloveHelper.link_row 7 (m_handPose g)
              store_link_row) with (las := hp_jointPositions pose)
              (lbs := hp_jointRotations pose) as [Hrows Hcols]; try done.
  { unfold wf_matrix in Hwf. by rewrite Hc in Hwf. }
  repeat split; [congruence|exact Hrows].
Qed.

(** [getHandJointsAngles()] with an answer from the glove: the angles of
    the links are stored in order in the leading rows of
    [m_handJointsAngles], the rows behind them keep their values. *)
Theorem getHandJointsAngles_stores_angles_in_order (pose : HandPose R) (g : GCH) :
  wf_matrix (m_handJointsAngles g) -> ncols (m_handJointsAngles g) = 3 ->
  GloveHelper.same_shape (hp_jointPositions pose) (hp_handAngles pose) ->
  let angles := concat (hp_handAngles pose) in
  length angles <= nrows (m_handJointsAngles g) ->
  let r := GloveHelper.getHandJointsAngles (Some pose) g in
  r.1 = true
  /\ ncols (m_handJointsAngles r.2) = 3
  /\ mrows (m_handJointsAngles r.2)
     = (GloveHelper.angles_row <$> angles)
         ++ drop (length angles) (mrows (m_handJointsAngles g)).
Proof.
  intros Hwf Hc Hshape angles Hbound r. subst r. simpl.
  destruct (snd_concat_zip _ _ Hshape) as [Hsnd Hlen].
  destruct (for_each_link_layout GloveHelper.zero3 GloveHelper.zero3
              (fun c _ a => GloveHelper.store_angles c a)
              (fun l => GloveHelper.angles_row l.2) 3 (m_handJointsAngles g))
    with (las := hp_jointPositions pose) (lbs := hp_handAngles pose)
    as [Hrows Hcols]; try done.
  { intros c a b M row. apply store_angles_row. }
  { unfold wf_matrix in Hwf. by rewrite Hc in Hwf. }
  { by rewrite Hlen. }
  repeat split; [congruence|].
  rewrite Hrows, Hlen. f_equal. subst angles. rewrite <- Hsnd.
  by rewrite <- list_fmap_compose.
Qed.

Lemma sensor_reads_cache (resps : list (option (list F))) (g : GCH) :
  m_sensorData (GloveHelper.sensor_reads resps g)
  = default (m_sensorData g) (last (omap id resps)).
Proof.
  unfold GloveHelper.sensor_reads. revert g.
  induction resps as [|[d|] resps IH]; intros g.
  - done.
  - change (omap id (Some d :: resps)) with (d :: omap id resps).
    rewrite last_cons. cbn [foldl]. rewrite IH. simpl.
    by destruct (last (omap id resps)).
  - cbn [foldl]. by rewrite IH.
Qed.

(** The getters of the glove never report a failed read. After any series
    of reads, [getSensorData] returns [true] with the data of the most
    recent successful read (the initial cache if there was none) and
    keeps it as the cache; a failed [getGlovePose], [getHandPose] or
    [getHandJointsAngles] returns [true] with the cached matrix and leaves
    the helper as it is. *)
Theorem glove_getters_return_the_last_successful_read
    (resps : list (option (list F))) (resp : option (list F)) (g : GCH) :
  let r := GloveHelper.getSensorData resp (GloveHelper.sensor_reads resps g) in
  (r.1.1 = true
   /\ r.1.2 = default (m_sensorData g) (last (omap id (resps ++ [resp])))
   /\ m_sensorData r.2 = r.1.2)
  /\ GloveHelper.getGlovePose None g = ((true, m_glovePose g), g)
  /\ GloveHelper.getHandPose None g = ((true, m_handPose g), g)
  /\ GloveHelper.getHandJointsAngles None g = (true, g).
Proof.
  intros r. split; [|done].
  assert (Hcache : m_sensorData r.2
                   = default (m_sensorData g) (last (omap id (resps ++ [resp])))).
  { rewrite <- sensor_reads_cache. subst r. unfold GloveHelper.sensor_reads.
    by rewrite foldl_app. }
  assert (Hsame : r.1.2 = m_sensorData r.2) by (subst r; by destruct resp).
  repeat split; [by subst r; destruct resp|congruence|done].
Qed.

(** The joint-angle list: it has one entry per configured joint name; for
    finger [f] and joint [k] the entry [3 f + k] is taken from row
    [4 f + k] of the angle matrix (so rows 3, 7, 11, 15 and 19 are never
    used), from the third column for the first joint of thumb and index
    and from the second column otherwise; entries from 15 on are those of
    the caller's vector, or zero. The call returns [true] also when the
    read of the glove inside it failed. *)
Theorem getHandJointsAngles_list_mapping
    (resp : option (HandPose R)) (jointAngleList : list R) (g : GCH) :
  15 <= length (m_humanJointNameList g) ->
  let r := GloveHelper.getHandJointsAngles_list resp jointAngleList g in
  let M := m_handJointsAngles r.2 in
  r.1.1 = true
  /\ r.2 = (GloveHelper.getHandJointsAngles resp g).2
  /\ length r.1.2 = length (m_humanJointNameList g)
  /\ (forall f k, f < 5 -> k < 3 ->
        r.1.2 !! (3 * f + k)
        = Some (coeffAt M (GloveHelper.joint_source f k).1 (GloveHelper.joint_source f k).2))
  /\ (forall i, 15 <= i ->
        r.1.2 !! i = vresize (length (m_humanJointNameList g)) jointAngleList !! i).
Proof.
  intros Hn r M. subst r M. unfold GloveHelper.getHandJointsAngles_list. simpl.
  assert (Hnames : m_humanJointNameList (GloveHelper.getHandJointsAngles resp g).2
                   = m_humanJointNameList g) by (by destruct resp).
  rewrite Hnames.
  set (M := m_handJointsAngles (GloveHelper.getHandJointsAngles resp g).2).
  assert (Hlen : length (vresize (length (m_humanJointNameList g)) jointAngleList)
                 = length (m_humanJointNameList g)).
  { unfold vresize. rewrite length_app, length_take, length_replicate. lia. }
  revert Hlen. generalize (vresize (length (m_humanJointNameList g)) jointAngleList).
  intros l Hlen.
  do 15 (destruct l as [|? l]; [simpl in Hlen; lia|]).
  unfold GloveHelper.jointAngle_assignments. simpl.
  repeat split; try done.
  - intros f k Hf Hk.
    do 5 (destruct f as [|f]; [do 3 (destruct k as [|k]; [reflexivity|]); lia|]). lia.
  - intros i Hi. do 15 (destruct i as [|i]; [lia|]). reflexivity.
Qed.

End GlovePoseFacts.

Section GloveConfigureFacts.
Context {R F Config Value : Type}
  `{!Scalar R, !CMath R, !GloveConfigSource Config Value}.

(** [GloveControlHelper::configure] fails exactly when one of the two name
    lists is missing or cannot be converted. When it succeeds the helper
    has five force and five buzz channels, all switched off, zero pose
    matrices of 30 x 7, 20 x 7 and 20 x 3, nothing has been sent, and the
    two reference setters accept exactly the vectors of five entries. *)
Theorem glove_configure_outcome (config : Config) (name : string) (rightHand : bool) :
  match GloveHelper.configure (R := R) (F := F) config name rightHand with
  | None =>
      check_value config "human_joint_list" ≫= yarpListToStringVector = None
      \/ check_value config "human_finger_list" ≫= yarpListToStringVector = None
  | Some g =>
      (check_value config "human_joint_list" ≫= yarpListToStringVector
         = Some (GloveHelper.getHumanJointsList g)
       /\ check_value config "human_finger_list" ≫= yarpListToStringVector
          = Some (GloveHelper.getHumanFingersList g))
      /\ (GloveHelper.getNoOfForceFeedback g = 5 /\ GloveHelper.getNoOfBuzzMotors g = 5
          /\ GloveHelper.getNoGloveLinks g = 30 /\ GloveHelper.getNoHandLinks g = 20
          /\ GloveHelper.getNoSensors g = 20)
      /\ (m_desiredForceValues g = replicate 5 0%Z
          /\ m_desiredBuzzValues g = replicate 5 0%Z /\ glove_sent g = [])
      /\ (m_glovePose g = GloveHelper.MatrixZero 30 7
          /\ m_handPose g = GloveHelper.MatrixZero 20 7
          /\ m_handJointsAngles g = GloveHelper.MatrixZero 20 3)
      /\ forall (v : list R) (sendOk : bool),
           ((GloveHelper.setFingersForceReference v sendOk g).1 = true
            <-> length v = 5 /\ sendOk = true)
           /\ ((GloveHelper.setBuzzMotorsReference v sendOk g).1 = true
               <-> length v = 5 /\ sendOk = true)
  end.
Proof.
  unfold GloveHelper.configure.
  destruct (check_value config "human_joint_list") as [jl|]; simpl; [|by left].
  destruct (yarpListToStringVector jl) as [joints|]; simpl; [|by left].
  destruct (check_value config "human_finger_list") as [fl|]; simpl; [|by right].
  destruct (yarpListToStringVector fl) as [fingers|]; simpl; [|by right].
  do 4 (split; [done|]). intros v sendOk.
  unfold GloveHelper.setFingersForceReference, GloveHelper.setBuzzMotorsReference.
  simpl. case_bool_decide as Hlen; simpl.
  - split; (split; [done|intros [Hv _]; done]).
  - assert (Hv : length v = 5) by lia.
    destruct sendOk; simpl; split; (split; [intros Hok|intros [_ Hok]]); done.
Qed.

End GloveConfigureFacts.

(** ** Further evaluation on binary64 data *)

Import DoubleGlove.

Example configure_coupled_table :
  m_A <$> configure coupled_table "left" None
  = Some (mkMatrix 2 [[1; 0]; [0; 1]; [1; 1]]%float).
Proof. vm_compute. reflexivity. Qed.

Lemma configure_coupling_matrix_by_mode_witness :
  exists s,
    configure coupled_table "left" None = Some s
    /\ m_controlCoeff s = mempty
    /\ m_motorJointsCoupled s = true /\ m_doCalibration s = false
    /\ exists A_vector,
         getYarpVectorFromSearchable coupled_table "CouplingMatrix" [] = Some A_vector
         /\ nrows (m_A s) = 3 /\ ncols (m_A s) = 2
         /\ forall i j, i < 3 -> j < 2 -> coeffAt (m_A s) i j = vget A_vector (i * 2 + j).
Proof.
  destruct (configure coupled_table "left" None) as [s|] eqn:Hcfg;
    [|vm_compute in Hcfg; discriminate].
  exists s. split; [reflexivity|].
  destruct (configure_coupling_matrix_by_mode coupled_table "left" None s Hcfg)
    as (Hcc & Hcoupled & Hcal & _ & _ & HA).
  assert (Hn : getActuatedDoFs (m_controlHelper s) = 2
               /\ getNumberOfJoints (m_controlHelper s) = 3).
  { vm_compute in Hcfg. by simplify_eq. }
  destruct Hn as [Ha Hj]. rewrite Ha, Hj in HA.
  repeat split; try done. by apply HA.
Defined.


Lemma log_operations_need_the_integrator_witness :
  (calibrating fingers_no_integrator = true
   /\ m_fingerIntegrator fingers_no_integrator = None)
  /\ LogDataToCalibrateRobotMotorsJointsCouplingRandom true (fun _ => 0.75%float)
       fingers_no_integrator = (false, fingers_no_integrator)
  /\ LogDataToCalibrateRobotMotorsJointsCouplingSin 1%float 0 fingers_no_integrator
     = (false, fingers_no_integrator).
Proof.
  split; [split; reflexivity|].
  apply (log_operations_need_the_integrator fingers_no_integrator true
           (fun _ => 0.75%float) 1%float 0); reflexivity.
Defined.

Lemma fingers0_ready : session_ready fingers0.
Proof. repeat split. by eexists. Qed.

Lemma random_excitation_grows_the_velocity_reference_witness :
  (session_ready fingers0 /\ calibrating fingers0 = true)
  /\ length (motorVelocityReference
               (session (replicate 3 (CallLogRandom true (fun _ => 0.75%float))) fingers0))
     = 6.
Proof.
  split; [split; [exact fingers0_ready|reflexivity]|].
  exact (random_excitation_grows_the_velocity_reference 3 (fun _ => 0.75%float) fingers0
           fingers0_ready eq_refl).
Defined.

Lemma sinusoidal_excitation_drives_one_axis_witness :
  (session_ready fingers0 /\ calibrating fingers0 = true)
  /\ let r := LogDataToCalibrateRobotMotorsJointsCouplingSin 0%float 1 fingers0 in
     r.1 = true
     /\ m_desiredMotorValue r.2
        = zip_with smul
            (<[1 := sadd M_PI_4 (smul M_PI_4 (ssin 0%float))]> (replicate 2 szero))
            [2; 0.5]%float
     /\ nrows (m_motorsData r.2) = 1
     /\ nrows (m_jointsData r.2) = 1.
Proof.
  split; [split; [exact fingers0_ready|reflexivity]|].
  exact (sinusoidal_excitation_drives_one_axis 0%float 1 fingers0 fingers0_ready
           eq_refl eq_refl eq_refl (le_n 2)).
Defined.

(** The command of the sinusoidal excitation at time 0 on axis 1, with
    scaling (2, 0.5): pi/8 on axis 1 and zero on axis 0. *)
Example sinusoidal_excitation_value :
  m_desiredMotorValue (LogDataToCalibrateRobotMotorsJointsCouplingSin 0%float 1 fingers0).2
  = [0; 0x1.921fb54442d18p-2]%float.
Proof. vm_compute. reflexivity. Qed.

Lemma updateModule_commands_nothing_before_running_witness :
  m_state module0 <> Running
  /\ m_rightHandFingers (updateModule cycle2 module0).2 = m_rightHandFingers module0
  /\ m_desiredMotorValue (m_leftHandFingers (updateModule cycle2 module0).2)
     = [0; 0]%float
  /\ actuatorCommand (controlHelper (m_leftHandFingers (updateModule cycle2 module0).2))
     = [0; 0]%float.
Proof.
  assert (Hst : m_state module0 <> Running) by discriminate.
  split; [exact Hst|].
  destruct (updateModule_commands_nothing_before_running cycle2 module0 Hst)
    as (H1 & H2 & H3 & _).
  repeat split; assumption.
Defined.

Lemma reference_loop_is_bounded_by_the_left_axis_count_witness :
  (m_state module_uneven = Running
   /\ 2 <= length (m_icubLeftFingerAxisReference module_uneven)
   /\ 2 <= length (m_icubRightFingerAxisReference module_uneven))
  /\ drop 2 (m_icubRightFingerAxisReference (updateModule cycle3 module_uneven).2)
     = [9%float]
  /\ length (m_icubLeftFingerAxisReference (updateModule cycle3 module_uneven).2) = 2.
Proof.
  split; [repeat split; simpl; lia|].
  destruct (reference_loop_is_bounded_by_the_left_axis_count cycle3 module_uneven eq_refl)
    as [HL HR]; [simpl; lia|simpl; lia|].
  rewrite HL, HR. split; reflexivity.
Defined.

Lemma module_configure_outcome_witness :
  ModuleSetup.configure finder0 None None = Some (settings0, module0)
  /\ m_state module0 = Configured
  /\ ModuleSetup.getPeriod settings0 = 0.5%float
  /\ (setFingersAxisReference (m_icubLeftFingerAxisReference module0)
        (m_leftHandFingers module0)).1 = true
  /\ (setFingersAxisReference (m_icubRightFingerAxisReference module0)
        (m_rightHandFingers module0)).1 = true.
Proof.
  assert (Hcfg : ModuleSetup.configure finder0 None None = Some (settings0, module0))
    by (vm_compute; reflexivity).
  split; [exact Hcfg|].
  destruct (module_configure_outcome finder0 None None settings0 module0 Hcfg)
    as ((Hst & _) & (_ & Hperiod) & _ & _ & (HsetL & HsetR)).
  repeat split; assumption.
Defined.

(** A resource finder without name, and one whose right hand has no
    scaling vector: the module cannot be configured. *)
Example module_configure_failures :
  ModuleSetup.configure (mkFinder false None (finder_groups finder0)) None None = None
  /\ ModuleSetup.configure
       (mkFinder false (Some "m")
          (<["RIGHT_FINGERS_RETARGETING" := mkTable (Some robot) ∅]> (finder_groups finder0)))
       None None = None.
Proof. vm_compute. split; reflexivity. Qed.

Lemma glove_setters_reject_wrong_size_witness :
  (length [1; 2]%float <> m_forceFbDof glove0
   /\ length ([] : list float) <> m_buzzDof glove0)
  /\ GloveHelper.setFingersForceReference [1; 2]%float true glove0 = (false, glove0)
  /\ GloveHelper.setBuzzMotorsReference [] true glove0 = (false, glove0).
Proof.
  split; [split; simpl; lia|].
  apply (glove_setters_reject_wrong_size [1; 2]%float [] true true glove0); simpl; lia.
Defined.

Lemma setFingersForceReference_stores_then_sends_witness :
  (length [-1; 0; 10; 40; 100]%float = m_forceFbDof glove0
   /\ length (m_desiredForceValues glove0) = m_forceFbDof glove0)
  /\ let r := GloveHelper.setFingersForceReference [-1; 0; 10; 40; 100]%float false glove0 in
     r.1 = false
     /\ m_desiredForceValues r.2 = [0; 0; 25; 100; 100]%Z
     /\ glove_sent r.2 = [SG_FFBCmd [0; 0; 25; 100; 100]%Z]
     /\ m_desiredBuzzValues r.2 = replicate 5 0%Z.
Proof.
  split; [split; reflexivity|].
  exact (setFingersForceReference_stores_then_sends [-1; 0; 10; 40; 100]%float false glove0
           eq_refl eq_refl).
Defined.

Lemma setBuzzMotorsReference_stores_then_sends_witness :
  (length [-1; 0.25; 0.5; 2.5; 250.75]%float = m_buzzDof glove0
   /\ length (m_desiredBuzzValues glove0) = m_buzzDof glove0)
  /\ let r := GloveHelper.setBuzzMotorsReference [-1; 0.25; 0.5; 2.5; 250.75]%float true glove0 in
     r.1 = true
     /\ m_desiredBuzzValues r.2 = [0; 0; 1; 3; 251]%Z
     /\ glove_sent r.2 = [SG_BuzzCmd [0; 0; 1; 3; 251]%Z]
     /\ m_desiredForceValues r.2 = replicate 5 0%Z.
Proof.
  split; [split; reflexivity|].
  exact (setBuzzMotorsReference_stores_then_sends [-1; 0.25; 0.5; 2.5; 250.75]%float true
           glove0 eq_refl eq_refl).
Defined.

Lemma non_positive_references_switch_off_witness :
  Forall (fun x => sltb szero x = false) [-1; 0; nan; -0.5; neg_infinity]%float
  /\ m_desiredForceValues
       (GloveHelper.setFingersForceReference [-1; 0; nan; -0.5; neg_infinity]%float
          true glove0).2
     = replicate 5 0%Z
  /\ m_desiredBuzzValues
       (GloveHelper.setBuzzMotorsReference [-1; 0; nan; -0.5; neg_infinity]%float
          true glove0).2
     = replicate 5 0%Z.
Proof.
  assert (Hneg : Forall (fun x => sltb szero x = false)
                   [-1; 0; nan; -0.5; neg_infinity]%float)
    by (repeat constructor).
  split; [exact Hneg|].
  exact (non_positive_references_switch_off [-1; 0; nan; -0.5; neg_infinity]%float true
           glove0 Hneg eq_refl eq_refl eq_refl eq_refl).
Defined.

Lemma glove0_pose_wf :
  wf_matrix (m_glovePose glove0) /\ wf_matrix (m_handPose glove0)
  /\ wf_matrix (m_handJointsAngles glove0).
Proof. repeat split; apply tabulate_wf. Qed.

Lemma pose_sample_shape :
  GloveHelper.same_shape (gp_jointPositions pose_sample) (gp_jointRotations pose_sample).
Proof. repeat constructor. Qed.

Lemma hand_sample_shape :
  GloveHelper.same_shape (hp_jointPositions hand_sample) (hp_jointRotations hand_sample)
  /\ GloveHelper.same_shape (hp_jointPositions hand_sample) (hp_handAngles hand_sample).
Proof. split; repeat constructor. Qed.

Lemma getGlovePose_stores_links_in_order_witness :
  GloveHelper.same_shape (gp_jointPositions pose_sample) (gp_jointRotations pose_sample)
  /\ take 4 (mrows (GloveHelper.getGlovePose (Some pose_sample) glove0).1.2)
     = [[1; 2; 3; 0; 0; 0; 1]; [4; 5; 6; 0; 0; 1; 0]; [7; 8; 9; 0; 1; 0; 0];
        [0; 0; 0; 0; 0; 0; 0]]%float
  /\ nrows (GloveHelper.getGlovePose (Some pose_sample) glove0).1.2 = 30.
Proof.
  split; [exact pose_sample_shape|].
  destruct (getGlovePose_stores_links_in_order pose_sample glove0
              (proj1 glove0_pose_wf) eq_refl pose_sample_shape)
    as (_ & _ & _ & Hrows); [vm_compute; lia|].
  unfold nrows. rewrite Hrows. split; reflexivity.
Defined.

Lemma getHandPose_stores_links_in_order_witness :
  GloveHelper.same_shape (hp_jointPositions hand_sample) (hp_jointRotations hand_sample)
  /\ mrows (GloveHelper.getHandPose (Some hand_sample) glove0).1.2
     = GloveHelper.link_row
         <$> concat (zip_with zip (hp_jointPositions hand_sample)
                       (hp_jointRotations hand_sample)).
Proof.
  split; [exact (proj1 hand_sample_shape)|].
  destruct (getHandPose_stores_links_in_order hand_sample glove0
              (proj1 (proj2 glove0_pose_wf)) eq_refl (proj1 hand_sample_shape))
    as (_ & _ & _ & Hrows); [vm_compute; lia|].
  rewrite Hrows. by rewrite app_nil_r.
Defined.

Lemma getHandJointsAngles_stores_angles_in_order_witness :
  GloveHelper.same_shape (hp_jointPositions hand_sample) (hp_handAngles hand_sample)
  /\ mrows (m_handJointsAngles (GloveHelper.getHandJointsAngles (Some hand_sample) glove0).2)
     = GloveHelper.angles_row <$> concat (hp_handAngles hand_sample).
Proof.
  split; [exact (proj2 hand_sample_shape)|].
  destruct (getHandJointsAngles_stores_angles_in_order hand_sample glove0
              (proj2 (proj2 glove0_pose_wf)) eq_refl (proj2 hand_sample_shape))
    as (_ & _ & Hrows); [vm_compute; lia|].
  rewrite Hrows. by rewrite app_nil_r.
Defined.

Lemma getHandJointsAngles_list_mapping_witness :
  15 <= length (m_humanJointNameList glove0)
  /\ (GloveHelper.getHandJointsAngles_list (Some hand_sample) [] glove0).1.2 !! (3 * 1 + 0)
     = Some 10.5%float
  /\ (GloveHelper.getHandJointsAngles_list (Some hand_sample) [] glove0).1.2 !! (3 * 2 + 1)
     = Some 21.25%float.
Proof.
  assert (Hn : 15 <= length (m_humanJointNameList glove0)) by (simpl; lia).
  split; [exact Hn|].
  destruct (getHandJointsAngles_list_mapping (Some hand_sample) [] glove0 Hn)
    as (_ & _ & _ & Hmap & _).
  split; [rewrite (Hmap 1 0) by lia|rewrite (Hmap 2 1) by lia]; reflexivity.
Defined.

(** The joint-angle list read from a full hand pose: the fingertip rows
    (3, 13, 23, 33, 43 in the sample numbering) do not appear. *)
Example joint_angle_list_sample :
  (GloveHelper.getHandJointsAngles_list (Some hand_sample) [] glove0).1
  = (true,
     [0.5; 1.25; 2.25; 10.5; 11.25; 12.25; 20.25; 21.25; 22.25;
      30.25; 31.25; 32.25; 40.25; 41.25; 42.25]%float).
Proof. vm_compute. reflexivity. Qed.

(** Three reads of the sensors, the last two failing: the data of the first
    one is returned. *)
Example sensor_data_is_stale_after_failures :
  (GloveHelper.getSensorData None
     (GloveHelper.sensor_reads [Some [1; 2]%float; None] glove0)).1
  = (true, [1; 2]%float).
Proof. reflexivity. Qed.

Example glove_configure_sample :
  GloveHelper.configure glove_names "glove" true = Some glove0
  /\ GloveHelper.configure (F := float) (R := float)
       (delete "human_finger_list" glove_names) "glove" true = None.
Proof. vm_compute. split; reflexivity. Qed.
